(** * Upload controller: row classification and CSV re-materialisation

    Shallow embedding of [src/controllers/upload-controller-2.js]
    (class [UploadController], method [create]) together with the parts of
    its two stream libraries that the method relies on:

    - csv-parser, configured with [{ headers: true }], names the cells of
      every line [_0], [_1], ... (its [writeRow]);
    - csv-writer, configured with a header of field ids and
      [alwaysQuote: true], turns every record into one field per id.

    Conventions of the model.

    - JavaScript values are the inductive type [JsVal]; numbers are the
      integer-valued ones.
    - A JavaScript object is an association list in insertion order, which
      is the order [Object.keys] reports for non-index string keys.
    - The uploaded buffer is represented by the lines csv-parser cuts it
      into, each a list of cells.
    - Every parsed row object carries the position of its line in the
      stream as its identity ([ident]); the handlers mutate and push that
      very object.
    - The route is mounted behind the token middleware, so
      [req.decoded.data] is an object; its four properties may hold any
      value ([CallerIdentity]).
    - What the method does to the outside world is recorded as a list of
      [Event]s in program order. *)

From Stdlib Require Import List String Ascii ZArith Bool Arith Lia Permutation.
From Stdlib Require Import Decimal DecimalString DecimalNat DecimalZ.
From Stdlib Require Import Sorted.
Import ListNotations.
Open Scope string_scope.

Set Warnings "-register-all".

(** ** JavaScript values *)

Module Js.

Inductive JsVal : Type :=
| JUndefined
| JNull
| JBool (b : bool)
| JNum (z : Z)
| JStr (s : string)
| JArr (items : list JsVal)
| JObj (props : list (string * JsVal)).

Definition Obj : Type := list (string * JsVal).

(** [Array.prototype.includes] compares with SameValueZero.  On the
    primitives of the model it coincides with [===].  Arrays and objects
    compare by reference; every needle this program passes is a CSV cell,
    [undefined], or the upload type, none of which is a reference to a
    parsed JSON structure. *)
Definition sameValueZero (x y : JsVal) : bool :=
  match x, y with
  | JUndefined, JUndefined => true
  | JNull, JNull => true
  | JBool a, JBool b => Bool.eqb a b
  | JNum a, JNum b => Z.eqb a b
  | JStr a, JStr b => String.eqb a b
  | _, _ => false
  end.

Definition strictEq : JsVal -> JsVal -> bool := sameValueZero.

Definition includes (arr : list JsVal) (x : JsVal) : bool :=
  existsb (fun e => sameValueZero e x) arr.

(** [o[k]] on an object. *)
Fixpoint getProp (o : Obj) (k : string) : JsVal :=
  match o with
  | [] => JUndefined
  | (k', v) :: o' => if String.eqb k' k then v else getProp o' k
  end.

(** [o[k] = v]: overwrite in place, or append a new key. *)
Fixpoint setProp (o : Obj) (k : string) (v : JsVal) : Obj :=
  match o with
  | [] => [(k, v)]
  | (k', v') :: o' =>
      if String.eqb k' k then (k', v) :: o' else (k', v') :: setProp o' k v
  end.

(** [Object.keys(o)]. *)
Definition keys (o : Obj) : list string := map fst o.

(** [v.k] for a property name that no prototype defines: a TypeError
    ([None]) on [undefined] and [null], the own property of an object,
    [undefined] on everything else. *)
Definition member (v : JsVal) (k : string) : option JsVal :=
  match v with
  | JUndefined | JNull => None
  | JObj o => Some (getProp o k)
  | _ => Some JUndefined
  end.

(** [arr[i]]. *)
Definition index (arr : list string) (i : nat) : JsVal :=
  match nth_error arr i with
  | Some s => JStr s
  | None => JUndefined
  end.

Definition string_of_nat (n : nat) : string :=
  NilEmpty.string_of_uint (Nat.to_uint n).

Definition string_of_Z (z : Z) : string :=
  NilEmpty.string_of_int (Z.to_int z).

Fixpoint join (sep : string) (l : list string) : string :=
  match l with
  | [] => ""
  | [s] => s
  | s :: rest => s ++ sep ++ join sep rest
  end.

(** [String(v)], as template literals and csv-writer apply it. *)
Fixpoint toString (v : JsVal) : string :=
  match v with
  | JUndefined => "undefined"
  | JNull => "null"
  | JBool true => "true"
  | JBool false => "false"
  | JNum z => string_of_Z z
  | JStr s => s
  | JArr items =>
      join ","
        (map (fun x => match x with
                       | JUndefined | JNull => ""
                       | _ => toString x
                       end) items)
  | JObj _ => "[object Object]"
  end.

(** Truthiness of a string: only the empty string is falsy. *)
Definition truthy (s : string) : bool :=
  match s with
  | EmptyString => false
  | String _ _ => true
  end.

(** [s.split(sep)] for a one-character separator. *)
Fixpoint split (sep : ascii) (s : string) : list string :=
  match s with
  | EmptyString => [EmptyString]
  | String c s' =>
      if Ascii.eqb c sep then EmptyString :: split sep s'
      else match split sep s' with
           | [] => [String c EmptyString]
           | seg :: rest => String c seg :: rest
           end
  end.

End Js.
Import Js.

(** ** csv-parser with [{ headers: true }] *)

Module CsvParser.

(** Modelled from the spec: the csv-parser package is not part of the
    repository.  Section 3: a row maps column positions to string values;
    the controller reads positions 0 and 12 as [data._0] and [data._12], so
    the key of the cell at [index] is [`_${index}`]. *)
Definition columnKey (index : nat) : string := "_" ++ string_of_nat index.

(** Modelled from the spec: the row object csv-parser builds for a line
    (its [writeRow]), one property per cell, set in cell order:
    [cells.reduce((o, cell, index) => { o[`_${index}`] = cell; return o },
    {})]. *)
Definition writeRow (cells : list string) : Obj :=
  fold_left (fun o ic => setProp o (columnKey (fst ic)) (JStr (snd ic)))
    (combine (seq 0 (List.length cells)) cells) [].

End CsvParser.
Import CsvParser.

(** ** Rows, requests and the dependency service *)

(** A row object of the stream: [ident] is its identity (the position of
    its line), [props] its current properties. *)
Record RowObj : Type := { ident : nat; props : Obj }.

(** [data[k] = v] on a row object: same object, updated properties. *)
Definition assign (data : RowObj) (k : string) (v : JsVal) : RowObj :=
  {| ident := ident data; props := setProp (props data) k v |}.

(** The row objects csv-parser emits for the lines of a buffer. *)
Definition parse (lines : list (list string)) : list RowObj :=
  map (fun il => {| ident := fst il; props := writeRow (snd il) |})
    (combine (seq 0 (List.length lines)) lines).

(** [req.decoded.data]. *)
Record CallerIdentity : Type :=
  { providerId : JsVal; team : JsVal; teamId : JsVal; locationId : JsVal }.

(** [req.file]. *)
Record File : Type := { originalname : string; buffer : list (list string) }.

Record Request : Type := { file : option File; decoded_data : CallerIdentity }.

Inductive JsError : Type :=
| Error (message : string)
| CustomError (message : string) (status : nat)
| TypeError
| SyntaxError
| FetchFailed
| IoError.

(** What [fetch] and [response.json()] give: the promise rejects, or a
    response arrives with its [ok] flag and a body that parses to a value
    ([None]: the body is not JSON). *)
Inductive FetchResult : Type :=
| NetworkFailure
| Response (ok : bool) (body : option JsVal).

(** [items.map((item) => item.ctc_number)]; [None] is the TypeError of
    reading a property of [null]. *)
Fixpoint mapCtcNumber (items : list JsVal) : option (list JsVal) :=
  match items with
  | [] => Some []
  | item :: rest =>
      match member item "ctc_number", mapCtcNumber rest with
      | Some v, Some vs => Some (v :: vs)
      | _, _ => None
      end
  end.

(** [ctcNumbers.map(...)]: only an array has [map]. *)
Definition existingCtcNumbersOf (ctcNumbers : JsVal) : option (list JsVal) :=
  match ctcNumbers with
  | JArr items => mapCtcNumber items
  | _ => None
  end.

(** ** The controller *)

Definition uploadTypes : list JsVal :=
  [JStr "clients"; JStr "contacts"; JStr "results"].

(** Line 62: the second underscore-delimited segment, or [null]. *)
Definition uploadTypeOf (originalFileName : string) : JsVal :=
  let fileNameParts := split "_" originalFileName in
  if includes uploadTypes (index fileNameParts 1)
  then index fileNameParts 1
  else JNull.

(** Lines 91-100: the reason computed for a row; [""] when none applies. *)
Definition rejectionReasonFor
    (uploadType : JsVal) (existingCtcNumbers : list JsVal) (data : Obj)
    : string :=
  if strictEq uploadType (JStr "clients")
     && includes existingCtcNumbers (getProp data "_0")
  then "Duplicate CTC number in clients file"
  else if includes [JStr "contacts"; JStr "results"] uploadType
          && negb (includes existingCtcNumbers (getProp data "_12"))
  then (if strictEq uploadType (JStr "contacts")
        then "No matching index client CTC number in contacts file"
        else "No matching index client CTC number in results file")
  else "".

Inductive Outcome : Type :=
| Accept
| Reject (reason : string).

(** The decision of lines 91-102: a truthy reason rejects. *)
Definition classify
    (uploadType : JsVal) (data : Obj) (existingCtcNumbers : list JsVal)
    : Outcome :=
  let rejectionReason :=
    rejectionReasonFor uploadType existingCtcNumbers data in
  if truthy rejectionReason then Reject rejectionReason else Accept.

Record StreamState : Type :=
  { results : list RowObj; rejectedRows : list RowObj; isFirstRow : bool }.

Definition initialState : StreamState :=
  {| results := []; rejectedRows := []; isFirstRow := true |}.

(** Lines 106-117. *)
Definition enrich (isFirst : bool) (caller : CallerIdentity) (data : RowObj)
    : RowObj :=
  if isFirst then
    assign (assign (assign (assign data
      "providerId" (JStr "providerId"))
      "team" (JStr "team"))
      "teamId" (JStr "teamId"))
      "locationId" (JStr "locationId")
  else
    assign (assign (assign (assign data
      "providerId" (providerId caller))
      "team" (team caller))
      "teamId" (teamId caller))
      "locationId" (locationId caller).

(** Lines 90-120: the ['data'] handler. *)
Definition onData
    (uploadType : JsVal) (existingCtcNumbers : list JsVal)
    (caller : CallerIdentity) (st : StreamState) (data : RowObj)
    : StreamState :=
  let rejectionReason :=
    rejectionReasonFor uploadType existingCtcNumbers (props data) in
  if truthy rejectionReason then
    {| results := results st;
       rejectedRows :=
         rejectedRows st
         ++ [assign data "rejectionReason" (JStr rejectionReason)];
       isFirstRow := isFirstRow st |}
  else
    {| results := results st ++ [enrich (isFirstRow st) caller data];
       rejectedRows := rejectedRows st;
       isFirstRow := false |}.

(** The state once the stream has delivered every row. *)
Definition runStream
    (uploadType : JsVal) (existingCtcNumbers : list JsVal)
    (caller : CallerIdentity) (rows : list RowObj) : StreamState :=
  fold_left (onData uploadType existingCtcNumbers caller) rows initialState.

(** ** csv-writer *)

Module CsvWriter.

(** Where the file goes: [join(__dirname, `../public/${uploadDirectory}`,
    originalFileName)], kept as its two varying parts. *)
Record FilePath : Type := { uploadDirectory : string; fileName : string }.

(** The options [createObjectCsvWriter] receives. *)
Record Params : Type :=
  { path : FilePath; header : list string; alwaysQuote : bool }.

Definition dq : ascii := ascii_of_nat 34.

Definition dquote : string := String dq EmptyString.

Fixpoint escapeQuotes (s : string) : string :=
  match s with
  | EmptyString => EmptyString
  | String c s' =>
      if Ascii.eqb c dq then String dq (String dq (escapeQuotes s'))
      else String c (escapeQuotes s')
  end.

(** A field between double quotes, its own double quotes doubled. *)
Definition quoteField (field : string) : string :=
  dquote ++ escapeQuotes field ++ dquote.

Fixpoint contains (c : ascii) (s : string) : bool :=
  match s with
  | EmptyString => false
  | String d s' => Ascii.eqb d c || contains c s'
  end.

Definition needsQuote (str : string) : bool :=
  contains (ascii_of_nat 44) str || contains (ascii_of_nat 10) str
  || contains dq str.

(** The text of a value: nothing for [undefined], [null] and [""]. *)
Definition fieldText (v : JsVal) : string :=
  match v with
  | JUndefined | JNull => ""
  | _ => toString v
  end.

(** Modelled from the spec: the field stringifier of the csv-writer package,
    which is not part of the repository.  Section 4.4: with [alwaysQuote]
    every emitted column is quoted unconditionally, regardless of content.
    The branch without the flag (quote only a text holding a delimiter, a
    line break or a quote) is never selected by the controller. *)
Definition stringifyField (always : bool) (v : JsVal) : string :=
  let str := fieldText v in
  if always then quoteField str
  else if needsQuote str then quoteField str else str.

(** Modelled from the spec: a record is emitted as one field per header
    id, in header order ([header.map(id => record[id])]); a record lacking
    an id contributes [undefined].  Section 4.4: the header fixes the
    emitted columns. *)
Definition getRecordAsArray (hdr : list string) (record : Obj) : list JsVal :=
  map (getProp record) hdr.

Definition recordFields (p : Params) (record : RowObj) : list string :=
  map (stringifyField (alwaysQuote p))
    (getRecordAsArray (header p) (props record)).

(** The fields [writeRecords] emits, record by record. *)
Definition emittedFields (p : Params) (records : list RowObj)
    : list (list string) :=
  map (recordFields p) records.



End CsvWriter.
Import CsvWriter.

(** ** Reading the written fields *)




(** ** The end of the stream and the whole request *)

Module Payload.

(** The body of the 201 response. *)
Record t : Type :=
  { token : JsVal;
    authenticated : bool;
    message : string;
    rejected : bool;
    rejectedRows : list RowObj }.

End Payload.

(** What the request does, in program order. *)
Inductive Event : Type :=
| Fetch (url : string)
| Data (data : RowObj)
| End_
| WriteRecords (params : Params) (records : list RowObj)
| Respond (status : nat) (payload : Payload.t)
| Next (error : JsError)
| Throw (error : JsError).

(** The two answers of the outside world a request depends on. *)
Record World : Type := { fetched : FetchResult; writeSucceeds : bool }.

(** Lines 126-138: the [switch]. *)
Definition uploadDirectoryFor (uploadType : JsVal) : option string :=
  if strictEq uploadType (JStr "clients") then Some "index_uploads"
  else if strictEq uploadType (JStr "contacts") then Some "contacts_uploads"
  else if strictEq uploadType (JStr "results") then Some "results_uploads"
  else None.

(** [arr.slice(1)]. *)
Definition slice1 {A : Type} (arr : list A) : list A := tl arr.

(** The error of the [switch] default (line 137). *)
Definition invalidUploadType (uploadType : JsVal) : JsError :=
  Error ("Invalid upload type: " ++ toString uploadType).

(** The error of line 161. *)
Definition allRowsRejected : JsError :=
  CustomError "All rows were rejected." 400.

(** Lines 140-145: the options of the writer. *)
Definition csvWriterFor
    (dir originalFileName : string) (first : RowObj) : Params :=
  {| path := {| uploadDirectory := dir; fileName := originalFileName |};
     header := keys (props first);
     alwaysQuote := true |}.

(** Lines 149-157: the payload. *)
Definition payloadFor (st : StreamState) : Payload.t :=
  let rejected := (0 <? List.length (rejectedRows st))%nat in
  {| Payload.token := JNull;
     Payload.authenticated := true;
     Payload.message := "File uploaded, processed, and saved successfully!";
     Payload.rejected := rejected;
     Payload.rejectedRows :=
       if rejected then slice1 (rejectedRows st) else rejectedRows st |}.

(** Lines 122-163: the ['end'] handler.  [writeOk] tells whether
    [writeRecords] resolves. *)
Definition onEnd
    (writeOk : bool) (uploadType : JsVal) (originalFileName : string)
    (st : StreamState) : list Event :=
  if (0 <? List.length (results st))%nat then
    match uploadDirectoryFor uploadType with
    | None => [Throw (invalidUploadType uploadType)]
    | Some dir =>
        match results st with
        | [] => [Throw TypeError]
        | first :: _ =>
            let csvWriter := csvWriterFor dir originalFileName first in
            if writeOk then
              [ WriteRecords csvWriter (results st);
                Respond 201 (payloadFor st) ]
            else [Throw IoError]
        end
    end
  else [Throw allRowsRejected].

(** The error of line 80. *)
Definition upstreamUnavailable : JsError :=
  Error "CTC Deuplicator checker unavailable. Retry later!".

(** The error of line 58. *)
Definition missingFile : JsError := Error "No file provided!".

Definition ctcNumbersUrl : string :=
  "http://localhost:8090/get-uploaded-ctc-numbers".

(** Lines 56-170: [create]. *)
Definition create (req : Request) (w : World) : list Event :=
  match file req with
  | None => [Next missingFile]
  | Some f =>
      let originalFileName := originalname f in
      let uploadType := uploadTypeOf originalFileName in
      Fetch ctcNumbersUrl ::
      match fetched w with
      | NetworkFailure => [Next FetchFailed]
      | Response ok body =>
          if negb ok then [Next upstreamUnavailable]
          else
            match body with
            | None => [Next SyntaxError]
            | Some ctcNumbers =>
                match existingCtcNumbersOf ctcNumbers with
                | None => [Next TypeError]
                | Some existingCtcNumbers =>
                    let rows := parse (buffer f) in
                    let st :=
                      runStream uploadType existingCtcNumbers
                        (decoded_data req) rows in
                    map Data rows
                    ++ End_
                    :: onEnd (writeSucceeds w) uploadType originalFileName st
                end
            end
      end
  end.

(** The files a run has written. *)
Definition filesWritten (evs : list Event) : list (Params * list RowObj) :=
  flat_map (fun e => match e with
                     | WriteRecords p rs => [(p, rs)]
                     | _ => []
                     end) evs.

(** The rows a run has handed to the ['data'] handler. *)
Definition rowsRead (evs : list Event) : list RowObj :=
  flat_map (fun e => match e with
                     | Data d => [d]
                     | _ => []
                     end) evs.

(** The list [existingCtcNumbers] a run classifies against, when it gets
    as far as building it (lines 78-83). *)
Definition referenceSetOf (w : World) : option (list JsVal) :=
  match fetched w with
  | Response true (Some ctcNumbers) => existingCtcNumbersOf ctcNumbers
  | _ => None
  end.

(** The buffers the ['end'] handler finds, when the stream is started. *)
Definition finalState (req : Request) (w : World) : option StreamState :=
  match file req, referenceSetOf w with
  | Some f, Some existingCtcNumbers =>
      Some (runStream (uploadTypeOf (originalname f)) existingCtcNumbers
              (decoded_data req) (parse (buffer f)))
  | _, _ => None
  end.

(** The errors that stop a request before its stream is started. *)
Definition earlyErrors : list JsError :=
  [missingFile; FetchFailed; upstreamUnavailable; SyntaxError; TypeError].

(** An error leaves the method, through [next] or out of a handler. *)
Definition raises (e : JsError) (evs : list Event) : Prop :=
  In (Next e) evs \/ In (Throw e) evs.

(** The names of the four appended fields. *)
Definition labels : list string :=
  ["providerId"; "team"; "teamId"; "locationId"].

(** The caller's four values, in the order of [labels]. *)
Definition callerValues (caller : CallerIdentity) : list JsVal :=
  [providerId caller; team caller; teamId caller; locationId caller].

(** What a row holds in the four appended fields. *)
Definition appended (data : RowObj) : list JsVal :=
  map (getProp (props data)) labels.

(** A row the ['data'] handler routes to [results]. *)
Definition accepted
    (uploadType : JsVal) (existingCtcNumbers : list JsVal) (data : RowObj)
    : bool :=
  negb (truthy (rejectionReasonFor uploadType existingCtcNumbers (props data))).

(** A row the ['data'] handler routes to [rejectedRows]. *)
Definition rejects
    (uploadType : JsVal) (existingCtcNumbers : list JsVal) (data : RowObj)
    : bool :=
  negb (accepted uploadType existingCtcNumbers data).

(** The rejected row as it is pushed: the reason attached. *)
Definition withReason
    (uploadType : JsVal) (existingCtcNumbers : list JsVal) (data : RowObj)
    : RowObj :=
  assign data "rejectionReason"
    (JStr (rejectionReasonFor uploadType existingCtcNumbers (props data))).

(** Accepted rows as they are pushed: labels on the first, the caller's
    values on the others. *)
Fixpoint enrichAll (isFirst : bool) (caller : CallerIdentity)
    (rows : list RowObj) : list RowObj :=
  match rows with
  | [] => []
  | data :: rest => enrich isFirst caller data :: enrichAll false caller rest
  end.

(** ** The classification policy in the words of section 4.2 *)

Section Policy.

Variables duplicateReason noMatchContacts noMatchResults : string.

Definition isType (name : string) (uploadType : JsVal) : bool :=
  match uploadType with
  | JStr s => String.eqb s name
  | _ => false
  end.

(** Clients: reject when the identifier field ([_0]) is already in the
    reference set.  Contacts and Results: reject when the cross-reference
    field ([_12]) is not in it, the text varying by type.  Otherwise
    accept. *)
Definition policy
    (uploadType : JsVal) (row : Obj) (referenceSet : list JsVal) : Outcome :=
  if isType "clients" uploadType then
    if includes referenceSet (getProp row "_0")
    then Reject duplicateReason else Accept
  else if isType "contacts" uploadType then
    if includes referenceSet (getProp row "_12")
    then Accept else Reject noMatchContacts
  else if isType "results" uploadType then
    if includes referenceSet (getProp row "_12")
    then Accept else Reject noMatchResults
  else Accept.

End Policy.

(** The policy with the reason texts of section 4.2. *)
Definition policyAsWritten : JsVal -> Obj -> list JsVal -> Outcome :=
  policy "Duplicate identifier in clients file"
         "No matching index client identifier in contacts file"
         "No matching index client identifier in results file".

(** The policy with the reason texts of lines 94 and 96. *)
Definition policyOfCode : JsVal -> Obj -> list JsVal -> Outcome :=
  policy "Duplicate CTC number in clients file"
         "No matching index client CTC number in contacts file"
         "No matching index client CTC number in results file".

(** The no-match reason of an upload type (line 96). *)
Definition noMatchReason (uploadType : JsVal) : string :=
  if strictEq uploadType (JStr "contacts")
  then "No matching index client CTC number in contacts file"
  else "No matching index client CTC number in results file".

(** ** The root handler *)

Module Root.

(** [!!v] and the test of [v ? a : b]: ToBoolean. *)
Definition toBoolean (v : JsVal) : bool :=
  match v with
  | JUndefined | JNull => false
  | JBool b => b
  | JNum z => negb (Z.eqb z 0)
  | JStr s => truthy s
  | JArr _ | JObj _ => true
  end.

(** The request as the root handler reads it: [req.decoded], [undefined]
    when no token was decoded. *)
Record Request : Type := { decoded : JsVal }.

Record Payload : Type :=
  { token : JsVal; authenticated : bool; message : string }.

(** [response.api(req, res, status, payload)]. *)
Record Answer : Type := { status : nat; payload : Payload }.

(** Lines 35-48 of upload-controller-2.js: [all]. *)
Definition all (req : Request) : Answer :=
  let authenticated := negb (negb (toBoolean (decoded req))) in
  {| status := 200;
     payload := {| token := JNull;
                   authenticated := authenticated;
                   message := "Root path reached" |} |}.

End Root.

(** ** Version 1.0.1 of the controller (kept beside deploy.sh) *)

Module V1.

(** Lines 81-98 of deploy.sh: [all]. *)
Definition all (req : Root.Request) : Root.Answer :=
  let authenticated :=
    if Root.toBoolean (Root.decoded req) then true else false in
  {| Root.status := 200;
     Root.payload := {| Root.token := JNull;
                        Root.authenticated := authenticated;
                        Root.message := "Root path reached" |} |}.

(** Lines 116-118: only clients and contacts are known. *)
Definition uploadTypeOf (originalFileName : string) : JsVal :=
  let fileNameParts := split "_" originalFileName in
  if strictEq (index fileNameParts 1) (JStr "clients")
     || strictEq (index fileNameParts 1) (JStr "contacts")
  then index fileNameParts 1
  else JNull.

Record StreamState : Type := { results : list RowObj; isFirstRow : bool }.

Definition initialState : StreamState :=
  {| results := []; isFirstRow := true |}.

(** Lines 131-152: the ['data'] handler; the assignments are those of
    lines 107-116 of version 1.1.0. *)
Definition onData (caller : CallerIdentity) (st : StreamState)
    (data : RowObj) : StreamState :=
  {| results := results st ++ [enrich (isFirstRow st) caller data];
     isFirstRow := false |}.

Definition runStream (caller : CallerIdentity) (rows : list RowObj)
    : StreamState :=
  fold_left (onData caller) rows initialState.

(** Lines 184-188: the payload. *)
Record Payload : Type :=
  { token : JsVal; authenticated : bool; message : string }.

Definition payload : Payload :=
  {| token := JNull;
     authenticated := true;
     message := "File uploaded, processed, and saved successfully!" |}.

Inductive Event : Type :=
| Data (data : RowObj)
| End_
| WriteRecords (params : Params) (records : list RowObj)
| Respond (status : nat) (payload : Payload)
| RespondText (status : nat) (body : string)
| Next (error : JsError)
| Throw (error : JsError).

(** Lines 161-168: the directory, when the type has one. *)
Definition uploadDirectoryFor (uploadType : JsVal) : option string :=
  if strictEq uploadType (JStr "clients") then Some "index_uploads"
  else if strictEq uploadType (JStr "contacts") then Some "contacts_uploads"
  else None.

(** The error of line 192. *)
Definition noData : JsError :=
  CustomError "No data available to write to CSV." 400.

(** Lines 155-194: the ['end'] handler. *)
Definition onEnd
    (writeOk : bool) (uploadType : JsVal) (originalFileName : string)
    (st : StreamState) : list Event :=
  if (0 <? List.length (results st))%nat then
    match uploadDirectoryFor uploadType with
    | None => [RespondText 201 ("Upload type is null!" ++ originalFileName)]
    | Some dir =>
        match results st with
        | [] => [Throw TypeError]
        | first :: _ =>
            let csvWriter := csvWriterFor dir originalFileName first in
            if writeOk then
              [WriteRecords csvWriter (results st); Respond 201 payload]
            else [Throw IoError]
        end
    end
  else [Throw noData].

(** Lines 107-202: [create]. *)
Definition create (req : Request) (writeOk : bool) : list Event :=
  match file req with
  | None => [Next missingFile]
  | Some f =>
      let originalFileName := originalname f in
      let uploadType := uploadTypeOf originalFileName in
      let rows := parse (buffer f) in
      map Data rows
      ++ End_
      :: onEnd writeOk uploadType originalFileName
           (runStream (decoded_data req) rows)
  end.

End V1.

(** ** Sample uploads *)

Module Samples.

Definition caller : CallerIdentity :=
  {| providerId := JNum 7; team := JStr "east"; teamId := JNum 3;
     locationId := JStr "L-9" |}.

(** A clients file: a title line, a known client, a new client. *)
Definition clientsLines : list (list string) :=
  [ ["ctc"; "name"]; ["CTC100"; "Asha"]; ["CTC200"; "Bea"] ].

(** A contacts file: two short lines, then two lines that name a known
    index client in their thirteenth cell. *)
Definition contactsLines : list (list string) :=
  [ ["h0"]; ["a"; "b"];
    ["c0";"c1";"c2";"c3";"c4";"c5";"c6";"c7";"c8";"c9";"c10";"c11";"CTC100"];
    ["d0";"d1";"d2";"d3";"d4";"d5";"d6";"d7";"d8";"d9";"d10";"d11";"CTC100"] ].

Definition upload (name : string) (lines : list (list string)) : Request :=
  {| file := Some {| originalname := name; buffer := lines |};
     decoded_data := caller |}.

Definition clientsUpload : Request :=
  upload "batch_clients_001.csv" clientsLines.

(** The row object of the known client. *)
Definition knownClientRow : Obj := writeRow ["CTC100"; "Asha"].

Definition contactsUpload : Request :=
  upload "batch_contacts_002.csv" contactsLines.

(** A file named for a type the controller does not know. *)
Definition ordersUpload : Request := upload "batch_orders_003.csv" clientsLines.

(** The same name on a file without a line. *)
Definition emptyOrdersUpload : Request := upload "batch_orders_003.csv" [].

(** A contacts file of one two-cell line. *)
Definition shortContactsUpload : Request :=
  upload "batch_contacts_004.csv" [["C-1"; "Asha"]].

(** The dependency answers 200 with one known number. *)
Definition known : World :=
  {| fetched :=
       Response true (Some (JArr [JObj [("ctc_number", JStr "CTC100")]]));
     writeSucceeds := true |}.

(** The dependency answers 200 with a number no sample file mentions. *)
Definition unrelated : World :=
  {| fetched :=
       Response true (Some (JArr [JObj [("ctc_number", JStr "CTC999")]]));
     writeSucceeds := true |}.

(** The dependency answers 500. *)
Definition down : World :=
  {| fetched := Response false None; writeSucceeds := true |}.

(** The dependency answers 200 with an element that has no [ctc_number]. *)
Definition unlabelled : World :=
  {| fetched := Response true (Some (JArr [JObj [("id", JNum 7)]]));
     writeSucceeds := true |}.

(** The report of the clients file above: its one rejected row is gone. *)
Definition clientsReport : Payload.t :=
  {| Payload.token := JNull;
     Payload.authenticated := true;
     Payload.message := "File uploaded, processed, and saved successfully!";
     Payload.rejected := true;
     Payload.rejectedRows := [] |}.

(** The writer options of the clients file above. *)
Definition clientsParams : Params :=
  {| path := {| uploadDirectory := "index_uploads";
                fileName := "batch_clients_001.csv" |};
     header := ["_0"; "_1"; "providerId"; "team"; "teamId"; "locationId"];
     alwaysQuote := true |}.

(** The records written for the clients file above. *)
Definition clientsRecords : list RowObj :=
  results
    (runStream (JStr "clients") [JStr "CTC100"] caller (parse clientsLines)).

End Samples.

(** * Properties *)

(** ** Strings and objects *)

Example split_file_name :
  split "_" "batch_clients_001.csv" = ["batch"; "clients"; "001.csv"].
Proof. reflexivity. Qed.

Example split_without_separator : index (split "_" "upload.csv") 1 = JUndefined.
Proof. reflexivity. Qed.

Example toString_samples :
  toString JNull = "null" /\ toString (JNum (-42)) = "-42"
  /\ toString (JArr [JNum 1; JNull; JStr "a"]) = "1,,a".
Proof. repeat split. Qed.

Example uploadTypeOf_samples :
  uploadTypeOf "batch_results_9.csv" = JStr "results"
  /\ uploadTypeOf "batch_orders_9.csv" = JNull
  /\ uploadTypeOf "upload.csv" = JNull.
Proof. repeat split. Qed.

Lemma string_of_nat_inj (m n : nat) :
  string_of_nat m = string_of_nat n -> m = n.
Proof.
  unfold string_of_nat. intros H.
  assert (E : Some (Nat.to_uint m) = Some (Nat.to_uint n)).
  { rewrite <- (NilEmpty.usu (Nat.to_uint m)).
    rewrite <- (NilEmpty.usu (Nat.to_uint n)).
    now rewrite H. }
  injection E as E.
  rewrite <- (DecimalNat.Unsigned.of_to m), <- (DecimalNat.Unsigned.of_to n).
  now rewrite E.
Qed.

Lemma columnKey_inj (m n : nat) : columnKey m = columnKey n -> m = n.
Proof.
  unfold columnKey. simpl. intros H. injection H as H.
  now apply string_of_nat_inj.
Qed.

Lemma columnKey_not_label (n : nat) (k : string) :
  In k ("rejectionReason" :: labels) -> columnKey n <> k.
Proof.
  unfold columnKey, labels. simpl.
  intros [<- | [<- | [<- | [<- | [<- | []]]]]]; discriminate.
Qed.

Lemma setProp_fresh (o : Obj) (k : string) (v : JsVal) :
  ~ In k (keys o) -> setProp o k v = (o ++ [(k, v)])%list.
Proof.
  induction o as [| [k' v'] o IH]; simpl; intros Hk; [reflexivity |].
  destruct (String.eqb_spec k' k) as [-> | _].
  - exfalso. apply Hk. now left.
  - rewrite IH; [reflexivity |]. intros Hin. apply Hk. now right.
Qed.

Lemma getProp_setProp_same (o : Obj) (k : string) (v : JsVal) :
  getProp (setProp o k v) k = v.
Proof.
  induction o as [| [k' v'] o IH]; simpl.
  - now rewrite String.eqb_refl.
  - destruct (String.eqb_spec k' k) as [-> | Hne]; simpl.
    + now rewrite String.eqb_refl.
    + destruct (String.eqb_spec k' k); [contradiction | exact IH].
Qed.

Lemma getProp_setProp_other (o : Obj) (k k' : string) (v : JsVal) :
  k <> k' -> getProp (setProp o k v) k' = getProp o k'.
Proof.
  intros Hne.
  induction o as [| [k0 v0] o IH]; simpl.
  - destruct (String.eqb_spec k k'); [contradiction | reflexivity].
  - destruct (String.eqb_spec k0 k) as [-> | H0]; simpl.
    + destruct (String.eqb_spec k k'); [contradiction | reflexivity].
    + destruct (String.eqb_spec k0 k'); [reflexivity | exact IH].
Qed.

Lemma getProp_absent (o : Obj) (k : string) :
  ~ In k (keys o) -> getProp o k = JUndefined.
Proof.
  induction o as [| [k' v'] o IH]; simpl; intros Hk; [reflexivity |].
  destruct (String.eqb_spec k' k) as [-> | _].
  - exfalso. apply Hk. now left.
  - apply IH. intros Hin. apply Hk. now right.
Qed.

(** ** csv-parser rows *)

Lemma map_fst_combine_seq (A : Type) (l : list A) (a : nat) :
  map fst (combine (seq a (List.length l)) l) = seq a (List.length l).
Proof.
  revert a. induction l as [| x l IH]; intros a; simpl; [reflexivity |].
  now rewrite IH.
Qed.

Lemma writeRow_fold (cells : list string) :
  forall (a : nat) (acc : Obj),
    (forall k, In k (keys acc) -> exists j, j < a /\ k = columnKey j) ->
    fold_left (fun o ic => setProp o (columnKey (fst ic)) (JStr (snd ic)))
      (combine (seq a (List.length cells)) cells) acc
    = (acc ++ map (fun ic => (columnKey (fst ic), JStr (snd ic)))
                (combine (seq a (List.length cells)) cells))%list.
Proof.
  induction cells as [| c cells IH]; intros a acc Hacc; simpl.
  - now rewrite app_nil_r.
  - rewrite setProp_fresh.
    + rewrite IH.
      * now rewrite <- app_assoc.
      * intros k Hk. unfold keys in Hk. rewrite map_app in Hk.
        apply in_app_or in Hk as [Hk | Hk].
        -- destruct (Hacc k Hk) as (j & Hj & ->).
           exists j. split; [lia | reflexivity].
        -- simpl in Hk. destruct Hk as [<- | []].
           exists a. split; [lia | reflexivity].
    + intros Hin. destruct (Hacc _ Hin) as (j & Hj & E).
      apply columnKey_inj in E. lia.
Qed.

(** The row object of a line: one property per cell, in cell order. *)
Lemma writeRow_cells (cells : list string) :
  writeRow cells
  = map (fun ic => (columnKey (fst ic), JStr (snd ic)))
      (combine (seq 0 (List.length cells)) cells).
Proof.
  unfold writeRow. rewrite writeRow_fold; [reflexivity |].
  intros k [].
Qed.

Lemma keys_writeRow (cells : list string) :
  keys (writeRow cells) = map columnKey (seq 0 (List.length cells)).
Proof.
  rewrite writeRow_cells. unfold keys. rewrite map_map. simpl.
  rewrite <- (map_map fst columnKey). now rewrite map_fst_combine_seq.
Qed.

Lemma writeRow_no_label (cells : list string) (k : string) :
  In k ("rejectionReason" :: labels) -> ~ In k (keys (writeRow cells)).
Proof.
  intros Hk Hin. rewrite keys_writeRow in Hin.
  apply in_map_iff in Hin as (n & E & _).
  exact (columnKey_not_label n k Hk E).
Qed.

(** A line with at most [i] cells has no property [_i]. *)
Lemma getProp_writeRow_short (cells : list string) (i : nat) :
  List.length cells <= i -> getProp (writeRow cells) (columnKey i) = JUndefined.
Proof.
  intros Hlen. apply getProp_absent. rewrite keys_writeRow.
  intros Hin. apply in_map_iff in Hin as (j & E & Hj).
  apply columnKey_inj in E. apply in_seq in Hj. lia.
Qed.

Lemma ident_parse (lines : list (list string)) :
  map ident (parse lines) = seq 0 (List.length lines).
Proof.
  unfold parse. rewrite map_map. simpl.
  apply map_fst_combine_seq.
Qed.

(** Every parsed row is the row object of the line at its position. *)
Lemma parse_row (lines : list (list string)) (data : RowObj) :
  In data (parse lines) ->
  exists cells,
    nth_error lines (ident data) = Some cells /\ props data = writeRow cells.
Proof.
  unfold parse. intros Hin.
  apply in_map_iff in Hin as ([i cells] & <- & Hin). simpl.
  exists cells. split; [| reflexivity].
  assert (G : forall (l : list (list string)) a,
             In (i, cells) (combine (seq a (List.length l)) l) ->
             nth_error l (i - a) = Some cells /\ a <= i).
  { induction l as [| x l IH]; intros a H; simpl in H; [contradiction |].
    destruct H as [H | H].
    - injection H as <- <-. rewrite Nat.sub_diag. split; [reflexivity | lia].
    - destruct (IH _ H) as [H1 H2].
      replace (i - a) with (S (i - S a)) by lia. split; [exact H1 | lia]. }
  destruct (G _ _ Hin) as [H _]. now rewrite Nat.sub_0_r in H.
Qed.

(** ** The stream *)

Lemma ident_enrich (b : bool) (caller : CallerIdentity) (data : RowObj) :
  ident (enrich b caller data) = ident data.
Proof. now destruct b. Qed.

Lemma ident_enrichAll (caller : CallerIdentity) (rows : list RowObj) :
  forall b, map ident (enrichAll b caller rows) = map ident rows.
Proof.
  induction rows as [| r rows IH]; intros b; simpl; [reflexivity |].
  now rewrite ident_enrich, IH.
Qed.

Section Stream.

Variables (uploadType : JsVal) (existingCtcNumbers : list JsVal).
Variable caller : CallerIdentity.

Lemma fold_onData (rows : list RowObj) :
  forall st,
    let st' :=
      fold_left (onData uploadType existingCtcNumbers caller) rows st in
    results st'
    = (results st
       ++ enrichAll (isFirstRow st) caller
            (filter (accepted uploadType existingCtcNumbers) rows))%list
    /\ rejectedRows st'
       = (rejectedRows st
          ++ map (withReason uploadType existingCtcNumbers)
               (filter (rejects uploadType existingCtcNumbers) rows))%list.
Proof.
  induction rows as [| data rows IH]; intros st; simpl.
  - now rewrite !app_nil_r.
  - destruct (IH (onData uploadType existingCtcNumbers caller st data))
      as [H1 H2].
    rewrite H1, H2. clear IH H1 H2.
    unfold rejects, accepted, onData, withReason.
    destruct (truthy (rejectionReasonFor uploadType existingCtcNumbers
                        (props data)));
      simpl; rewrite <- ?app_assoc; split; reflexivity.
Qed.

(** The two buffers after the stream: the accepted rows enriched, the
    rejected rows with their reason, each in stream order. *)
Lemma runStream_buffers (rows : list RowObj) :
  let st := runStream uploadType existingCtcNumbers caller rows in
  results st
  = enrichAll true caller
      (filter (accepted uploadType existingCtcNumbers) rows)
  /\ rejectedRows st
     = map (withReason uploadType existingCtcNumbers)
         (filter (rejects uploadType existingCtcNumbers) rows).
Proof.
  unfold runStream.
  destruct (fold_onData rows initialState) as [H1 H2].
  simpl in *. now rewrite H1, H2.
Qed.

Lemma filter_split_perm (rows : list RowObj) :
  Permutation
    (filter (accepted uploadType existingCtcNumbers) rows
     ++ filter (rejects uploadType existingCtcNumbers) rows)
    rows.
Proof.
  induction rows as [| data rows IH]; simpl; [constructor |].
  unfold rejects at 1.
  destruct (accepted uploadType existingCtcNumbers data); simpl.
  - now constructor.
  - apply Permutation_sym, Permutation_cons_app, Permutation_sym, IH.
Qed.

End Stream.

(** ** The classifier *)

(** C1 (as amended): for every upload type, row and reference list the
    classifier returns exactly the policy of section 4.2 -- clients: reject
    a row whose [_0] is in the list; contacts and results: reject a row
    whose [_12] is not in the list; accept otherwise -- with the reason
    texts "Duplicate CTC number in clients file", "No matching index
    client CTC number in contacts file" and "No matching index client CTC
    number in results file". *)
Theorem classify_is_policy_of_code
    (uploadType : JsVal) (data : Obj) (referenceSet : list JsVal) :
  classify uploadType data referenceSet
  = policyOfCode uploadType data referenceSet.
Proof.
  unfold classify, rejectionReasonFor, policyOfCode, policy, isType, strictEq.
  destruct uploadType as [| | b | z | s | items | o]; try reflexivity.
  cbn [sameValueZero includes existsb].
  rewrite (String.eqb_sym "contacts" s), (String.eqb_sym "results" s).
  destruct (String.eqb_spec s "clients") as [-> | _].
  - cbn. destruct (includes referenceSet (getProp data "_0")); reflexivity.
  - cbn [andb].
    destruct (String.eqb_spec s "contacts") as [-> | _].
    + cbn. destruct (includes referenceSet (getProp data "_12")); reflexivity.
    + destruct (String.eqb_spec s "results") as [-> | _].
      * cbn. destruct (includes referenceSet (getProp data "_12")); reflexivity.
      * reflexivity.
Qed.

(** C1 (as stated) fails: on a clients upload whose first cell is already
    known, the classifier's reason reads "Duplicate CTC number in clients
    file", not "Duplicate identifier in clients file". *)
Lemma classify_differs_from_policy_as_written :
  classify (JStr "clients") Samples.knownClientRow [JStr "CTC100"]
  = Reject "Duplicate CTC number in clients file"
  /\ policyAsWritten (JStr "clients") Samples.knownClientRow [JStr "CTC100"]
     = Reject "Duplicate identifier in clients file"
  /\ classify (JStr "clients") Samples.knownClientRow [JStr "CTC100"]
     <> policyAsWritten (JStr "clients") Samples.knownClientRow
          [JStr "CTC100"].
Proof.
  repeat split; try reflexivity.
  vm_compute. discriminate.
Qed.

(** ** Routing of rows *)

Lemma count_occ_seq (n i : nat) :
  count_occ Nat.eq_dec (seq 0 n) i = if (i <? n)%nat then 1 else 0.
Proof.
  destruct (Nat.ltb_spec i n) as [Hlt | Hge].
  - assert (Hin : In i (seq 0 n)) by (apply in_seq; lia).
    apply (count_occ_In Nat.eq_dec) in Hin.
    pose proof (proj1 (NoDup_count_occ Nat.eq_dec (seq 0 n))
                  (seq_NoDup n 0) i).
    lia.
  - apply count_occ_not_In. intros Hin. apply in_seq in Hin. lia.
Qed.

(** C2: whatever the stream, the upload type and the reference list, every
    parsed row is pushed to exactly one of [results] and [rejectedRows]:
    [results] holds the accepted rows and [rejectedRows] the others, each
    in stream order, and the identities found in the two buffers together
    are those of the parsed rows, each once, so no row is in both and none
    is dropped. *)
Theorem each_row_in_exactly_one_buffer
    (uploadType : JsVal) (existingCtcNumbers : list JsVal)
    (caller : CallerIdentity) (lines : list (list string)) :
  let st := runStream uploadType existingCtcNumbers caller (parse lines) in
  results st
  = enrichAll true caller
      (filter (accepted uploadType existingCtcNumbers) (parse lines))
  /\ rejectedRows st
     = map (withReason uploadType existingCtcNumbers)
         (filter (rejects uploadType existingCtcNumbers) (parse lines))
  /\ Permutation (map ident (results st) ++ map ident (rejectedRows st))
       (map ident (parse lines))
  /\ NoDup (map ident (results st) ++ map ident (rejectedRows st))
  /\ forall i,
       count_occ Nat.eq_dec (map ident (results st)) i
       + count_occ Nat.eq_dec (map ident (rejectedRows st)) i
       = if (i <? List.length lines)%nat then 1 else 0.
Proof.
  intros st.
  destruct (runStream_buffers uploadType existingCtcNumbers caller
              (parse lines)) as [Hres Hrej].
  fold st in Hres, Hrej.
  assert (P : Permutation
                (map ident (results st) ++ map ident (rejectedRows st))
                (map ident (parse lines))).
  { rewrite Hres, Hrej, ident_enrichAll, map_map.
    cbn [withReason assign ident].
    rewrite <- map_app. apply Permutation_map, filter_split_perm. }
  split; [exact Hres |]. split; [exact Hrej |].
  split; [exact P |]. split.
  - apply (Permutation_NoDup (Permutation_sym P)).
    rewrite ident_parse. apply seq_NoDup.
  - intros i. rewrite <- count_occ_app.
    rewrite (proj1 (Permutation_count_occ Nat.eq_dec _ _) P i).
    rewrite ident_parse. apply count_occ_seq.
Qed.

(** ** Enrichment *)

Lemma enrich_first_labels (caller : CallerIdentity) (data : RowObj) :
  appended (enrich true caller data) = map JStr labels.
Proof.
  unfold appended, enrich, assign, labels. cbn [props map].
  repeat (rewrite ?getProp_setProp_same;
          rewrite ?getProp_setProp_other by discriminate).
  reflexivity.
Qed.

Lemma enrich_later_caller (caller : CallerIdentity) (data : RowObj) :
  appended (enrich false caller data) = callerValues caller.
Proof.
  unfold appended, callerValues, enrich, assign, labels. cbn [props map].
  repeat (rewrite ?getProp_setProp_same;
          rewrite ?getProp_setProp_other by discriminate).
  reflexivity.
Qed.

Lemma enrichAll_later_caller (caller : CallerIdentity) (rows : list RowObj) :
  Forall (fun r => appended r = callerValues caller)
    (enrichAll false caller rows).
Proof.
  induction rows as [| data rows IH]; simpl; constructor.
  - apply enrich_later_caller.
  - exact IH.
Qed.

(** The first element a filter keeps, and what precedes it. *)
Lemma filter_head (A : Type) (p : A -> bool) (l : list A) (x : A)
    (xs : list A) :
  filter p l = x :: xs ->
  exists before after,
    l = (before ++ x :: after)%list
    /\ forallb (fun y => negb (p y)) before = true
    /\ p x = true
    /\ xs = filter p after.
Proof.
  induction l as [| y l IH]; simpl; [discriminate |].
  destruct (p y) eqn:Hy.
  - intros E. injection E as -> <-.
    exists [], l. repeat split; assumption.
  - intros E. destruct (IH E) as (before & after & -> & Hb & Hx & Hxs).
    exists (y :: before), after. simpl. rewrite Hy, Hb.
    repeat split; assumption.
Qed.

(** C3: when at least one row is accepted, the head of [results] is the
    first accepted row of the stream, however many rows were rejected
    before it, and its fields [providerId], [team], [teamId], [locationId]
    hold those very names; every later entry of [results] holds the
    caller's four values in these fields. *)
Theorem label_row_heads_results
    (uploadType : JsVal) (existingCtcNumbers : list JsVal)
    (caller : CallerIdentity) (lines : list (list string)) :
  let st := runStream uploadType existingCtcNumbers caller (parse lines) in
  results st <> [] ->
  exists first rest,
    results st = first :: rest
    /\ appended first = map JStr labels
    /\ Forall (fun r => appended r = callerValues caller) rest
    /\ exists before data after,
         parse lines = (before ++ data :: after)%list
         /\ forallb (rejects uploadType existingCtcNumbers) before = true
         /\ accepted uploadType existingCtcNumbers data = true
         /\ first = enrich true caller data.
Proof.
  intros st Hne.
  destruct (runStream_buffers uploadType existingCtcNumbers caller
              (parse lines)) as [Hres _].
  fold st in Hres.
  destruct (filter (accepted uploadType existingCtcNumbers) (parse lines))
    as [| data kept] eqn:Hf.
  - simpl in Hres. contradiction.
  - simpl in Hres.
    exists (enrich true caller data), (enrichAll false caller kept).
    split; [exact Hres |].
    split; [apply enrich_first_labels |].
    split; [apply enrichAll_later_caller |].
    destruct (filter_head _ _ _ _ _ Hf) as (before & after & Hl & Hb & Hd & _).
    exists before, data, after. repeat split; assumption.
Qed.

(** C3, on a contacts file whose first two lines are rejected. *)
Lemma label_row_heads_results_witness :
  results (runStream (JStr "contacts") [JStr "CTC100"] Samples.caller
             (parse Samples.contactsLines)) <> []
  /\ exists first rest,
       results (runStream (JStr "contacts") [JStr "CTC100"] Samples.caller
                  (parse Samples.contactsLines)) = first :: rest
       /\ appended first = map JStr labels
       /\ Forall (fun r => appended r = callerValues Samples.caller) rest
       /\ exists before data after,
            parse Samples.contactsLines = (before ++ data :: after)%list
            /\ forallb (rejects (JStr "contacts") [JStr "CTC100"]) before
               = true
            /\ accepted (JStr "contacts") [JStr "CTC100"] data = true
            /\ first = enrich true Samples.caller data.
Proof.
  assert (Hne : results (runStream (JStr "contacts") [JStr "CTC100"]
                           Samples.caller (parse Samples.contactsLines)) <> [])
    by (vm_compute; discriminate).
  split; [exact Hne |].
  exact (label_row_heads_results (JStr "contacts") [JStr "CTC100"]
           Samples.caller Samples.contactsLines Hne).
Defined.

(** ** The end handler *)

(** The four ways the ['end'] handler can go. *)
Lemma onEnd_cases
    (writeOk : bool) (uploadType : JsVal) (name : string) (st : StreamState) :
  (results st = []
   /\ onEnd writeOk uploadType name st = [Throw allRowsRejected])
  \/ (results st <> []
      /\ uploadDirectoryFor uploadType = None
      /\ onEnd writeOk uploadType name st
         = [Throw (invalidUploadType uploadType)])
  \/ (results st <> []
      /\ uploadDirectoryFor uploadType <> None
      /\ writeOk = false
      /\ onEnd writeOk uploadType name st = [Throw IoError])
  \/ (exists dir first rest,
         results st = first :: rest
         /\ uploadDirectoryFor uploadType = Some dir
         /\ writeOk = true
         /\ onEnd writeOk uploadType name st
            = [ WriteRecords (csvWriterFor dir name first) (results st);
                Respond 201 (payloadFor st) ]).
Proof.
  unfold onEnd.
  destruct (results st) as [| first rest] eqn:Hres;
    cbn [List.length Nat.ltb Nat.leb].
  - left. now split.
  - right. destruct (uploadDirectoryFor uploadType) as [dir |].
    + right. destruct writeOk.
      * right. exists dir, first, rest. repeat split.
      * left. repeat split; discriminate.
    + left. repeat split. discriminate.
Qed.

(** The report: flag and reported rows against [rejectedRows]. *)
Lemma payloadFor_rejected (st : StreamState) :
  (Payload.rejected (payloadFor st) = true <-> rejectedRows st <> [])
  /\ (Payload.rejected (payloadFor st) = true ->
      Payload.rejectedRows (payloadFor st) = tl (rejectedRows st))
  /\ (Payload.rejected (payloadFor st) = false ->
      Payload.rejectedRows (payloadFor st) = rejectedRows st).
Proof.
  unfold payloadFor. cbn [Payload.rejected Payload.rejectedRows].
  destruct (rejectedRows st) as [| rj rjs]; cbn; repeat split;
    intros; try discriminate; try reflexivity; try congruence.
Qed.

(** ** The request as a whole *)

Lemma finalState_some (req : Request) (w : World) (st : StreamState) :
  finalState req w = Some st ->
  exists f existingCtcNumbers,
    file req = Some f
    /\ referenceSetOf w = Some existingCtcNumbers
    /\ st = runStream (uploadTypeOf (originalname f)) existingCtcNumbers
              (decoded_data req) (parse (buffer f)).
Proof.
  unfold finalState.
  destruct (file req) as [f |]; [| discriminate].
  destruct (referenceSetOf w) as [ex |]; [| discriminate].
  intros E. injection E as <-. now exists f, ex.
Qed.

(** The log of a request whose stream is started: the fetch, one ['data']
    event per row, the end of the stream, what the ['end'] handler does. *)
Lemma create_streamed
    (req : Request) (w : World) (f : File) (st : StreamState) :
  file req = Some f ->
  finalState req w = Some st ->
  create req w
  = Fetch ctcNumbersUrl
    :: map Data (parse (buffer f))
    ++ End_
    :: onEnd (writeSucceeds w) (uploadTypeOf (originalname f))
         (originalname f) st.
Proof.
  intros Hf Hfs.
  destruct (finalState_some _ _ _ Hfs) as (f' & ex & Hf' & Href & ->).
  assert (f' = f) by congruence. subst f'.
  unfold create, referenceSetOf in *. rewrite Hf.
  destruct (fetched w) as [| [|] [ctcNumbers |]]; try discriminate.
  cbn [negb]. now rewrite Href.
Qed.

(** A request whose stream is not started ends in [next(error)], having
    done at most the fetch. *)
Lemma create_not_streamed (req : Request) (w : World) :
  finalState req w = None ->
  exists e,
    In e earlyErrors
    /\ (create req w = [Next e]
        \/ create req w = [Fetch ctcNumbersUrl; Next e]).
Proof.
  unfold finalState, create, referenceSetOf, earlyErrors.
  destruct (file req) as [f |].
  - destruct (fetched w) as [| [|] [ctcNumbers |]]; cbn [negb];
      try destruct (existingCtcNumbersOf ctcNumbers); try discriminate;
      intros _; eexists; (split; [| right; reflexivity]); simpl; tauto.
  - intros _. eexists. split; [| left; reflexivity]. simpl; tauto.
Qed.

(** An event other than [Fetch], [Data] and [End_] found in the log of a
    request comes from the ['end'] handler or is an early [next(error)]. *)
Lemma create_event_origin (req : Request) (w : World) (e : Event) :
  In e (create req w) ->
  (forall d, e <> Data d) -> (forall u, e <> Fetch u) -> e <> End_ ->
  (exists st f,
      finalState req w = Some st /\ file req = Some f
      /\ In e (onEnd (writeSucceeds w) (uploadTypeOf (originalname f))
                 (originalname f) st))
  \/ (finalState req w = None
      /\ exists err, In err earlyErrors /\ e = Next err).
Proof.
  intros Hin HD HF HE.
  destruct (finalState req w) as [st |] eqn:Hfs.
  - left. destruct (finalState_some _ _ _ Hfs) as (f & ex & Hf & _ & _).
    exists st, f. repeat split; try assumption.
    rewrite (create_streamed _ _ _ _ Hf Hfs) in Hin.
    destruct Hin as [Hin | Hin]; [exfalso; exact (HF _ (eq_sym Hin)) |].
    apply in_app_or in Hin as [Hin | [Hin | Hin]].
    + apply in_map_iff in Hin as (d & Hd & _).
      exfalso. exact (HD d (eq_sym Hd)).
    + exfalso. exact (HE (eq_sym Hin)).
    + exact Hin.
  - right. split; [reflexivity |].
    destruct (create_not_streamed _ _ Hfs) as (err & Herr & [Hc | Hc]);
      rewrite Hc in Hin; exists err; split; try assumption.
    + destruct Hin as [<- | []]. reflexivity.
    + destruct Hin as [Hin | [<- | []]];
        [exfalso; exact (HF _ (eq_sym Hin)) | reflexivity].
Qed.

(** Closes a goal whose event [e] is said to be a write or a response
    while it is visibly something else. *)
Ltac not_success Hkind :=
  destruct Hkind as [(? & ? & ?) | (? & ? & ?)]; discriminate.

(** A write or a response in the log is the one of the last branch of the
    ['end'] handler. *)
Lemma create_success (req : Request) (w : World) (e : Event) :
  In e (create req w) ->
  (exists p rs, e = WriteRecords p rs) \/ (exists s pl, e = Respond s pl) ->
  exists st f dir first rest,
    finalState req w = Some st
    /\ file req = Some f
    /\ results st = first :: rest
    /\ uploadDirectoryFor (uploadTypeOf (originalname f)) = Some dir
    /\ (e = WriteRecords (csvWriterFor dir (originalname f) first) (results st)
        \/ e = Respond 201 (payloadFor st)).
Proof.
  intros Hin Hkind.
  assert (HD : forall d, e <> Data d).
  { intros d ->. not_success Hkind. }
  assert (HF : forall u, e <> Fetch u).
  { intros u ->. not_success Hkind. }
  assert (HE : e <> End_).
  { intros ->. not_success Hkind. }
  destruct (create_event_origin _ _ _ Hin HD HF HE) as
    [(st & f & Hfs & Hf & Hend) | (_ & err & _ & ->)].
  - destruct (onEnd_cases (writeSucceeds w) (uploadTypeOf (originalname f))
                (originalname f) st)
      as [(_ & Ho) | [(_ & _ & Ho) | [(_ & _ & _ & Ho)
          | (dir & first & rest & Hres & Hdir & _ & Ho)]]];
      rewrite Ho in Hend.
    + destruct Hend as [<- | []]. not_success Hkind.
    + destruct Hend as [<- | []]. not_success Hkind.
    + destruct Hend as [<- | []]. not_success Hkind.
    + exists st, f, dir, first, rest. repeat split; try assumption.
      destruct Hend as [<- | [<- | []]]; [now left | now right].
  - not_success Hkind.
Qed.

(** ** The report *)

(** C4: in every successful upload (the 201 response is sent) the
    [rejected] flag of the payload is true exactly when [rejectedRows] is
    non-empty, and whenever the flag is true the reported rows are
    [rejectedRows] without its first entry, whatever that entry is. *)
Theorem report_drops_first_rejected
    (req : Request) (w : World) (status : nat) (payload : Payload.t) :
  In (Respond status payload) (create req w) ->
  exists st,
    finalState req w = Some st
    /\ status = 201
    /\ (Payload.rejected payload = true <-> rejectedRows st <> [])
    /\ (Payload.rejected payload = true ->
        Payload.rejectedRows payload = tl (rejectedRows st))
    /\ (Payload.rejected payload = false ->
        Payload.rejectedRows payload = rejectedRows st).
Proof.
  intros Hin.
  destruct (create_success _ _ _ Hin) as
    (st & f & dir & first & rest & Hfs & _ & _ & _ & [E | E]);
    [right; now exists status, payload | discriminate |].
  injection E as Hstatus Hpayload. subst status payload.
  exists st. split; [exact Hfs |]. split; [reflexivity |].
  apply payloadFor_rejected.
Qed.

(** C4, on the sample clients file: one known client, so one rejection. *)
Lemma report_drops_first_rejected_witness :
  In (Respond 201 Samples.clientsReport)
     (create Samples.clientsUpload Samples.known)
  /\ exists st,
       finalState Samples.clientsUpload Samples.known = Some st
       /\ 201 = 201
       /\ (Payload.rejected Samples.clientsReport = true
           <-> rejectedRows st <> [])
       /\ (Payload.rejected Samples.clientsReport = true ->
           Payload.rejectedRows Samples.clientsReport = tl (rejectedRows st))
       /\ (Payload.rejected Samples.clientsReport = false ->
           Payload.rejectedRows Samples.clientsReport = rejectedRows st).
Proof.
  assert (H : In (Respond 201 Samples.clientsReport)
                (create Samples.clientsUpload Samples.known)).
  { vm_compute. repeat (first [left; reflexivity | right]). }
  split; [exact H |].
  exact (report_drops_first_rejected _ _ _ _ H).
Defined.

(** A reason is only ever produced for an upload type the [switch] maps. *)
Lemma reason_needs_type
    (uploadType : JsVal) (existingCtcNumbers : list JsVal) (data : Obj) :
  truthy (rejectionReasonFor uploadType existingCtcNumbers data) = true ->
  uploadDirectoryFor uploadType <> None.
Proof.
  unfold rejectionReasonFor, uploadDirectoryFor, strictEq.
  destruct uploadType as [| | b | z | s | items | o]; try discriminate.
  cbn [sameValueZero includes existsb].
  rewrite (String.eqb_sym "contacts" s), (String.eqb_sym "results" s).
  destruct (String.eqb s "clients"); [discriminate |].
  destruct (String.eqb s "contacts"); [discriminate |].
  destruct (String.eqb s "results"); discriminate.
Qed.

(** A run that rejected a row has a mapped upload type. *)
Lemma rejection_needs_type
    (uploadType : JsVal) (existingCtcNumbers : list JsVal)
    (caller : CallerIdentity) (rows : list RowObj) :
  rejectedRows (runStream uploadType existingCtcNumbers caller rows) <> [] ->
  uploadDirectoryFor uploadType <> None.
Proof.
  destruct (runStream_buffers uploadType existingCtcNumbers caller rows)
    as [_ ->].
  destruct (filter _ rows) as [| data others] eqn:Hflt; [now intros [] |].
  intros _.
  assert (Hin : In data (data :: others)) by now left.
  rewrite <- Hflt in Hin. apply filter_In in Hin as [_ Hd].
  unfold rejects, accepted in Hd. rewrite negb_involutive in Hd.
  exact (reason_needs_type _ _ _ Hd).
Qed.

(** C9: an upload with at least one accepted row and exactly one rejected
    row, whose file is written, is answered 201 with [rejected] true and an
    empty [rejectedRows]: the only rejected row, reason included, is not
    reported. *)
Theorem sole_rejected_row_unreported
    (req : Request) (w : World) (st : StreamState) :
  finalState req w = Some st ->
  results st <> [] ->
  List.length (rejectedRows st) = 1 ->
  writeSucceeds w = true ->
  exists payload,
    In (Respond 201 payload) (create req w)
    /\ Payload.rejected payload = true
    /\ Payload.rejectedRows payload = []
    /\ forall status other,
         In (Respond status other) (create req w) -> other = payload.
Proof.
  intros Hfs Hres Hrej Hw.
  destruct (finalState_some _ _ _ Hfs) as (f & ex & Hf & _ & Hst).
  assert (Hdir : uploadDirectoryFor (uploadTypeOf (originalname f)) <> None).
  { apply (rejection_needs_type _ ex (decoded_data req) (parse (buffer f))).
    rewrite <- Hst. destruct (rejectedRows st); discriminate. }
  exists (payloadFor st). split; [| split; [| split]].
  - rewrite (create_streamed _ _ _ _ Hf Hfs).
    destruct (onEnd_cases (writeSucceeds w) (uploadTypeOf (originalname f))
                (originalname f) st)
      as [(H & _) | [(_ & H & _) | [(_ & _ & H & _)
          | (dir & first & rest & _ & _ & _ & Ho)]]];
      [contradiction | contradiction | congruence |].
    rewrite Ho. right. apply in_or_app. right. right. right. now left.
  - unfold payloadFor. cbn. now rewrite Hrej.
  - unfold payloadFor. cbn. rewrite Hrej. cbn.
    destruct (rejectedRows st) as [| rj [| rj' rjs]]; try discriminate.
    reflexivity.
  - intros status other Hin.
    destruct (create_success _ _ _ Hin) as
      (st' & f' & dir & first & rest & Hfs' & _ & _ & _ & [E | E]);
      [right; now exists status, other | discriminate |].
    injection E as _ Hother. congruence.
Qed.

(** C9, on the sample clients file: the known client is the only
    rejection and the report lists none. *)
Lemma sole_rejected_row_unreported_witness :
  exists st,
    finalState Samples.clientsUpload Samples.known = Some st
    /\ results st <> []
    /\ List.length (rejectedRows st) = 1
    /\ writeSucceeds Samples.known = true
    /\ exists payload,
         In (Respond 201 payload) (create Samples.clientsUpload Samples.known)
         /\ Payload.rejected payload = true
         /\ Payload.rejectedRows payload = []
         /\ forall status other,
              In (Respond status other)
                 (create Samples.clientsUpload Samples.known) ->
              other = payload.
Proof.
  eexists.
  assert (H1 : finalState Samples.clientsUpload Samples.known
               = Some (runStream (JStr "clients") [JStr "CTC100"]
                         Samples.caller (parse Samples.clientsLines)))
    by reflexivity.
  split; [exact H1 |].
  assert (H2 : results (runStream (JStr "clients") [JStr "CTC100"]
                          Samples.caller (parse Samples.clientsLines)) <> [])
    by (vm_compute; discriminate).
  assert (H3 : List.length
                 (rejectedRows (runStream (JStr "clients") [JStr "CTC100"]
                                  Samples.caller (parse Samples.clientsLines)))
               = 1) by reflexivity.
  split; [exact H2 |]. split; [exact H3 |]. split; [reflexivity |].
  exact (sole_rejected_row_unreported _ _ _ H1 H2 H3 eq_refl).
Defined.

(** ** Failures *)

Lemma filesWritten_app (a b : list Event) :
  filesWritten (a ++ b) = (filesWritten a ++ filesWritten b)%list.
Proof. apply flat_map_app. Qed.

Lemma filesWritten_Data (rows : list RowObj) :
  filesWritten (map Data rows) = [].
Proof. induction rows as [| r rows IH]; [reflexivity | exact IH]. Qed.

Lemma rowsRead_Data (rows : list RowObj) : rowsRead (map Data rows) = rows.
Proof.
  induction rows as [| r rows IH]; [reflexivity |].
  simpl. now rewrite IH.
Qed.

(** Once the stream is started every row of the file reaches the ['data']
    handler, however the ['end'] handler goes. *)
Lemma rowsRead_streamed
    (req : Request) (w : World) (f : File) (st : StreamState) :
  file req = Some f ->
  finalState req w = Some st ->
  rowsRead (create req w) = parse (buffer f).
Proof.
  intros Hf Hfs. rewrite (create_streamed _ _ _ _ Hf Hfs).
  change (rowsRead (Fetch ctcNumbersUrl :: ?l)) with (rowsRead l).
  unfold rowsRead at 1. rewrite flat_map_app.
  fold (rowsRead (map Data (parse (buffer f)))). rewrite rowsRead_Data.
  destruct (onEnd_cases (writeSucceeds w) (uploadTypeOf (originalname f))
              (originalname f) st)
    as [(_ & Ho) | [(_ & _ & Ho) | [(_ & _ & _ & Ho)
        | (dir & first & rest & _ & _ & _ & Ho)]]];
    rewrite Ho; cbn; now rewrite app_nil_r.
Qed.

(** With the type [null] no row is rejected. *)
Lemma null_type_accepts_all
    (existingCtcNumbers : list JsVal) (caller : CallerIdentity)
    (rows : list RowObj) :
  results (runStream JNull existingCtcNumbers caller rows)
  = enrichAll true caller rows.
Proof.
  destruct (runStream_buffers JNull existingCtcNumbers caller rows) as [H _].
  rewrite H. clear H. f_equal.
  induction rows as [| r rows IH]; [reflexivity |].
  cbn [filter]. rewrite IH. reflexivity.
Qed.

(** C6: when [results] is empty once the stream is exhausted -- whatever
    the upload type, the unmapped [null] included -- the ['end'] handler
    throws the error "All rows were rejected." (status 400) after all rows
    were handled, and no file is written. *)
Theorem empty_results_all_rejected
    (req : Request) (w : World) (st : StreamState) :
  finalState req w = Some st ->
  results st = [] ->
  raises (CustomError "All rows were rejected." 400) (create req w)
  /\ filesWritten (create req w) = []
  /\ exists f,
       file req = Some f
       /\ create req w
          = Fetch ctcNumbersUrl
            :: map Data (parse (buffer f))
            ++ [End_; Throw (CustomError "All rows were rejected." 400)].
Proof.
  intros Hfs Hres.
  destruct (finalState_some _ _ _ Hfs) as (f & ex & Hf & _ & _).
  assert (Hc : create req w
               = Fetch ctcNumbersUrl
                 :: map Data (parse (buffer f))
                 ++ [End_; Throw (CustomError "All rows were rejected." 400)]).
  { rewrite (create_streamed _ _ _ _ Hf Hfs).
    unfold onEnd. now rewrite Hres. }
  split; [| split].
  - right. rewrite Hc. right. apply in_or_app. right. right. now left.
  - rewrite Hc. change (filesWritten (Fetch ctcNumbersUrl :: ?l))
      with (filesWritten l).
    now rewrite filesWritten_app, filesWritten_Data.
  - now exists f.
Qed.

(** C6, on the sample contacts file against a reference list that knows
    none of its index clients. *)
Lemma empty_results_all_rejected_witness :
  exists st,
    finalState Samples.contactsUpload Samples.unrelated = Some st
    /\ results st = []
    /\ raises (CustomError "All rows were rejected." 400)
         (create Samples.contactsUpload Samples.unrelated)
    /\ filesWritten (create Samples.contactsUpload Samples.unrelated) = []
    /\ exists f,
         file Samples.contactsUpload = Some f
         /\ create Samples.contactsUpload Samples.unrelated
            = Fetch ctcNumbersUrl
              :: map Data (parse (buffer f))
              ++ [End_; Throw (CustomError "All rows were rejected." 400)].
Proof.
  eexists.
  assert (H1 : finalState Samples.contactsUpload Samples.unrelated
               = Some (runStream (JStr "contacts") [JStr "CTC999"]
                         Samples.caller (parse Samples.contactsLines)))
    by reflexivity.
  assert (H2 : results (runStream (JStr "contacts") [JStr "CTC999"]
                          Samples.caller (parse Samples.contactsLines)) = [])
    by reflexivity.
  split; [exact H1 |]. split; [exact H2 |].
  exact (empty_results_all_rejected _ _ _ H1 H2).
Defined.

(** The same error under the type [null]: there [results] is empty only
    when the file has no line. *)
Example empty_file_of_unknown_type :
  uploadTypeOf "batch_orders_003.csv" = JNull
  /\ create Samples.emptyOrdersUpload Samples.known
     = [Fetch ctcNumbersUrl; End_; Throw allRowsRejected].
Proof. split; reflexivity. Qed.

(** C7: when a file is attached and the dependency answers without
    success ([ok] false), the request ends right after the fetch with the
    error "CTC Deuplicator checker unavailable. Retry later!" handed to
    [next]: no row is read or classified and no file is written. *)
Theorem upstream_unavailable_aborts
    (req : Request) (w : World) (f : File) (body : option JsVal) :
  file req = Some f ->
  fetched w = Response false body ->
  create req w
  = [ Fetch ctcNumbersUrl;
      Next (Error "CTC Deuplicator checker unavailable. Retry later!") ]
  /\ rowsRead (create req w) = []
  /\ filesWritten (create req w) = []
  /\ finalState req w = None.
Proof.
  intros Hf Hfetch.
  assert (Hc : create req w = [Fetch ctcNumbersUrl; Next upstreamUnavailable]).
  { unfold create. now rewrite Hf, Hfetch. }
  rewrite Hc. repeat split.
  unfold finalState, referenceSetOf. now rewrite Hf, Hfetch.
Qed.

(** C7, on the sample clients file while the dependency answers 500. *)
Lemma upstream_unavailable_aborts_witness :
  fetched Samples.down = Response false None
  /\ create Samples.clientsUpload Samples.down
     = [ Fetch ctcNumbersUrl;
         Next (Error "CTC Deuplicator checker unavailable. Retry later!") ]
  /\ rowsRead (create Samples.clientsUpload Samples.down) = []
  /\ filesWritten (create Samples.clientsUpload Samples.down) = []
  /\ finalState Samples.clientsUpload Samples.down = None.
Proof.
  split; [reflexivity |].
  exact (upstream_unavailable_aborts Samples.clientsUpload Samples.down
           {| originalname := "batch_clients_001.csv";
              buffer := Samples.clientsLines |}
           None eq_refl eq_refl).
Defined.

(** ** The upload type *)

Lemma includes_uploadTypes (v : JsVal) :
  includes uploadTypes v = true -> In v uploadTypes.
Proof.
  unfold includes, uploadTypes. cbn [existsb In].
  destruct v as [| | b | z | s | items | o]; try discriminate.
  cbn [sameValueZero]. rewrite orb_false_r.
  intros H. apply orb_true_iff in H as [H | H];
    [| apply orb_true_iff in H as [H | H]];
    apply String.eqb_eq in H; subst; tauto.
Qed.

Lemma uploadTypeOf_null (name : string) :
  ~ In (index (split "_" name) 1) uploadTypes -> uploadTypeOf name = JNull.
Proof.
  intros Hn. unfold uploadTypeOf.
  destruct (includes uploadTypes (index (split "_" name) 1)) eqn:E;
    [| reflexivity].
  elim Hn. now apply includes_uploadTypes.
Qed.

(** No early error is the error of the [switch] default. *)
Lemma earlyErrors_not_invalid (uploadType : JsVal) :
  ~ In (invalidUploadType uploadType) earlyErrors.
Proof.
  unfold earlyErrors, invalidUploadType, missingFile, upstreamUnavailable.
  cbn. intros [H | [H | [H | [H | [H | []]]]]]; discriminate.
Qed.

(** C8: a file name whose second underscore-delimited segment is none of
    clients, contacts, results gives the upload type [null].  For such a
    request the error "Invalid upload type: ..." is raised only by the
    ['end'] handler, after every row of the file went through the ['data']
    handler, and only when [results] is non-empty; with a non-empty
    [results] it is raised. *)
Theorem invalid_type_surfaces_after_stream (req : Request) (f : File) :
  file req = Some f ->
  ~ In (index (split "_" (originalname f)) 1) uploadTypes ->
  uploadTypeOf (originalname f) = JNull
  /\ forall w,
       (forall ut,
           raises (invalidUploadType ut) (create req w) ->
           exists st,
             finalState req w = Some st
             /\ results st <> []
             /\ create req w
                = Fetch ctcNumbersUrl
                  :: map Data (parse (buffer f))
                  ++ [End_; Throw (invalidUploadType JNull)])
       /\ (forall st,
              finalState req w = Some st -> results st <> [] ->
              raises (invalidUploadType JNull) (create req w)).
Proof.
  intros Hf Hseg.
  pose proof (uploadTypeOf_null _ Hseg) as Hnull.
  split; [exact Hnull |]. intros w.
  assert (Hlog : forall st,
             finalState req w = Some st ->
             results st <> [] ->
             create req w
             = Fetch ctcNumbersUrl
               :: map Data (parse (buffer f))
               ++ [End_; Throw (invalidUploadType JNull)]).
  { intros st Hfs Hne.
    rewrite (create_streamed _ _ _ _ Hf Hfs), Hnull.
    destruct (onEnd_cases (writeSucceeds w) JNull (originalname f) st)
      as [(H & _) | [(_ & _ & Ho) | [(_ & H & _)
          | (dir & first & rest & _ & H & _)]]];
      [contradiction | now rewrite Ho | now elim H | discriminate]. }
  split.
  - intros ut [Hin | Hin].
    + exfalso.
      destruct (create_event_origin _ _ _ Hin) as
        [(st & f' & Hfs & _ & Hend) | (_ & err & Herr & E)];
        try discriminate.
      * destruct (onEnd_cases (writeSucceeds w) (uploadTypeOf (originalname f'))
                    (originalname f') st)
          as [(_ & Ho) | [(_ & _ & Ho) | [(_ & _ & _ & Ho)
              | (dir & first & rest & _ & _ & _ & Ho)]]];
          rewrite Ho in Hend;
          repeat (destruct Hend as [Hend | Hend]; try discriminate);
          contradiction.
      * injection E as <-. exact (earlyErrors_not_invalid ut Herr).
    + destruct (create_event_origin _ _ _ Hin) as
        [(st & f' & Hfs & Hf' & Hend) | (_ & err & _ & E)];
        try discriminate.
      assert (f' = f) by congruence. subst f'.
      exists st. split; [exact Hfs |].
      rewrite Hnull in Hend.
      destruct (onEnd_cases (writeSucceeds w) JNull (originalname f) st)
        as [(_ & Ho) | [(Hne & _ & _) | [(_ & H & _)
            | (dir & first & rest & _ & H & _)]]];
        [| split; [exact Hne | exact (Hlog st Hfs Hne)]
         | now elim H | discriminate].
      rewrite Ho in Hend. destruct Hend as [E | []]. discriminate.
  - intros st Hfs Hne. right. rewrite (Hlog st Hfs Hne).
    right. apply in_or_app. right. right. now left.
Qed.

(** C8, on a file named for an upload type the controller does not
    know. *)
Lemma invalid_type_surfaces_after_stream_witness :
  ~ In (index (split "_" "batch_orders_003.csv") 1) uploadTypes
  /\ uploadTypeOf "batch_orders_003.csv" = JNull
  /\ forall w,
       (forall ut,
           raises (invalidUploadType ut) (create Samples.ordersUpload w) ->
           exists st,
             finalState Samples.ordersUpload w = Some st
             /\ results st <> []
             /\ create Samples.ordersUpload w
                = Fetch ctcNumbersUrl
                  :: map Data (parse Samples.clientsLines)
                  ++ [End_; Throw (invalidUploadType JNull)])
       /\ (forall st,
              finalState Samples.ordersUpload w = Some st ->
              results st <> [] ->
              raises (invalidUploadType JNull)
                (create Samples.ordersUpload w)).
Proof.
  assert (H : ~ In (index (split "_" "batch_orders_003.csv") 1) uploadTypes).
  { cbn. intros [E | [E | [E | []]]]; discriminate. }
  split; [exact H |].
  exact (invalid_type_surfaces_after_stream Samples.ordersUpload
           {| originalname := "batch_orders_003.csv";
              buffer := Samples.clientsLines |}
           eq_refl H).
Defined.

(** The sample file of unknown type against a dependency that answers:
    all three lines are handled, then the error surfaces. *)
Example unknown_type_log :
  create Samples.ordersUpload Samples.known
  = Fetch ctcNumbersUrl
    :: map Data (parse Samples.clientsLines)
    ++ [End_; Throw (Error "Invalid upload type: null")].
Proof. reflexivity. Qed.

(** ** The written file *)

Lemma keys_setProp_fresh (o : Obj) (k : string) (v : JsVal) :
  ~ In k (keys o) -> keys (setProp o k v) = (keys o ++ [k])%list.
Proof.
  intros Hk. rewrite (setProp_fresh o k v Hk). unfold keys.
  now rewrite map_app.
Qed.

Lemma keys_setProp_snoc
    (o : Obj) (base ks : list string) (k : string) (v : JsVal) :
  keys o = (base ++ ks)%list -> ~ In k base -> ~ In k ks ->
  keys (setProp o k v) = (base ++ (ks ++ [k]))%list.
Proof.
  intros Ho Hb Hk. rewrite keys_setProp_fresh, Ho.
  - now rewrite app_assoc.
  - rewrite Ho. intros H. apply in_app_or in H. tauto.
Qed.

(** The keys of an accepted row: its columns, then the four labels. *)
Lemma keys_enrich (b : bool) (caller : CallerIdentity) (data : RowObj)
    (cells : list string) :
  props data = writeRow cells ->
  keys (props (enrich b caller data))
  = (map columnKey (seq 0 (List.length cells)) ++ labels)%list.
Proof.
  intros Hp.
  assert (Hfresh : forall k, In k labels -> ~ In k (keys (props data))).
  { intros k Hk. rewrite Hp. apply writeRow_no_label. now right. }
  assert (G : forall v1 v2 v3 v4,
             keys (setProp (setProp (setProp (setProp (props data)
                     "providerId" v1) "team" v2) "teamId" v3) "locationId" v4)
             = (keys (props data) ++ labels)%list).
  { intros v1 v2 v3 v4.
    apply (keys_setProp_snoc _ _ ["providerId"; "team"; "teamId"]);
      [| apply Hfresh; cbn; tauto | cbn; intuition discriminate].
    apply (keys_setProp_snoc _ _ ["providerId"; "team"]);
      [| apply Hfresh; cbn; tauto | cbn; intuition discriminate].
    apply (keys_setProp_snoc _ _ ["providerId"]);
      [| apply Hfresh; cbn; tauto | cbn; intuition discriminate].
    apply (keys_setProp_snoc _ _ []);
      [| apply Hfresh; cbn; tauto | cbn; tauto].
    now rewrite app_nil_r. }
  unfold enrich, assign.
  destruct b; cbn [props]; rewrite G, Hp, keys_writeRow; reflexivity.
Qed.

Lemma getProp_cells (cells : list string) :
  forall a i,
    a <= i ->
    getProp (map (fun ic => (columnKey (fst ic), JStr (snd ic)))
               (combine (seq a (List.length cells)) cells)) (columnKey i)
    = match nth_error cells (i - a) with
      | Some c => JStr c
      | None => JUndefined
      end.
Proof.
  induction cells as [| c cells IH]; intros a i Hle;
    cbn [List.length seq combine map getProp fst snd].
  - now destruct (i - a).
  - destruct (String.eqb_spec (columnKey a) (columnKey i)) as [E | Hne].
    + apply columnKey_inj in E. subst i. now rewrite Nat.sub_diag.
    + assert (a <> i) by (intros ->; now apply Hne).
      rewrite IH by lia.
      replace (i - a) with (S (i - S a)) by lia. reflexivity.
Qed.

(** The row object of a line holds each cell under the key of its
    position. *)
Lemma getProp_writeRow_cell (cells : list string) (i : nat) (c : string) :
  nth_error cells i = Some c ->
  getProp (writeRow cells) (columnKey i) = JStr c.
Proof.
  intros Hc. rewrite writeRow_cells, getProp_cells by lia.
  now rewrite Nat.sub_0_r, Hc.
Qed.

Lemma In_enrichAll (caller : CallerIdentity) (rows : list RowObj)
    (r : RowObj) :
  forall b,
    In r (enrichAll b caller rows) ->
    exists b' data, In data rows /\ r = enrich b' caller data.
Proof.
  induction rows as [| d rows IH]; intros b; cbn; [intros [] |].
  intros [<- | Hin].
  - exists b, d. split; [now left | reflexivity].
  - destruct (IH _ Hin) as (b' & data & Hd & ->).
    exists b', data. split; [now right | reflexivity].
Qed.

(** Enrichment leaves every property other than the four labels as it
    was. *)
Lemma getProp_enrich_other
    (b : bool) (caller : CallerIdentity) (data : RowObj) (k : string) :
  ~ In k labels ->
  getProp (props (enrich b caller data)) k = getProp (props data) k.
Proof.
  intros Hk.
  assert (H1 : "providerId" <> k) by (intros <-; apply Hk; cbn; tauto).
  assert (H2 : "team" <> k) by (intros <-; apply Hk; cbn; tauto).
  assert (H3 : "teamId" <> k) by (intros <-; apply Hk; cbn; tauto).
  assert (H4 : "locationId" <> k) by (intros <-; apply Hk; cbn; tauto).
  unfold enrich, assign. destruct b; cbn [props];
    now rewrite !getProp_setProp_other.
Qed.











(** The fields emitted for the sample clients file: the label row, then
    the one new client with the caller's values. *)
Example clients_file_fields :
  emittedFields Samples.clientsParams Samples.clientsRecords
  = [ map quoteField ["ctc"; "name"; "providerId"; "team"; "teamId";
                      "locationId"];
      map quoteField ["CTC200"; "Bea"; "7"; "east"; "3"; "L-9"] ].
Proof. reflexivity. Qed.

(** ** Short rows *)

Lemma includes_undefined (arr : list JsVal) :
  includes arr JUndefined = true -> In JUndefined arr.
Proof.
  unfold includes. intros H. apply existsb_exists in H as (e & He & Heq).
  destruct e; try discriminate. exact He.
Qed.

Lemma undefined_included (arr : list JsVal) :
  In JUndefined arr -> includes arr JUndefined = true.
Proof.
  intros Hin. unfold includes. apply existsb_exists.
  now exists JUndefined.
Qed.

(** When every element of the response has a defined [ctc_number], the
    reference list holds no [undefined]. *)
Lemma mapCtcNumber_defined (items existingCtcNumbers : list JsVal) :
  mapCtcNumber items = Some existingCtcNumbers ->
  Forall (fun item => member item "ctc_number" <> Some JUndefined) items ->
  ~ In JUndefined existingCtcNumbers.
Proof.
  revert existingCtcNumbers.
  induction items as [| item items IH]; intros ex Hmap Hall; cbn in Hmap.
  - injection Hmap as <-. intros [].
  - destruct (member item "ctc_number") as [v |] eqn:Hv; [| discriminate].
    destruct (mapCtcNumber items) as [vs |]; [| discriminate].
    injection Hmap as <-. inversion Hall as [| ? ? Hitem Hrest]; subst.
    intros [E | Hin].
    + subst v. exact (Hitem Hv).
    + exact (IH vs eq_refl Hrest Hin).
Qed.

(** C10 (as amended): on a contacts or results upload whose reference
    list holds no [undefined] -- every element of the dependency's response
    bears a [ctc_number] -- a row of fewer than 13 cells, which has no
    [_12], is rejected with the no-match reason of its type; the classifier
    returns on every such row. *)
Theorem short_row_rejected
    (uploadType : JsVal) (existingCtcNumbers : list JsVal)
    (cells : list string) :
  In uploadType [JStr "contacts"; JStr "results"] ->
  ~ In JUndefined existingCtcNumbers ->
  List.length cells < 13 ->
  getProp (writeRow cells) "_12" = JUndefined
  /\ classify uploadType (writeRow cells) existingCtcNumbers
     = Reject (noMatchReason uploadType)
  /\ truthy (noMatchReason uploadType) = true.
Proof.
  intros Hty Hdef Hlen.
  assert (H12 : getProp (writeRow cells) "_12" = JUndefined).
  { change "_12" with (columnKey 12). apply getProp_writeRow_short. lia. }
  assert (Hinc : includes existingCtcNumbers JUndefined = false).
  { destruct (includes existingCtcNumbers JUndefined) eqn:E; [| reflexivity].
    elim Hdef. now apply includes_undefined. }
  split; [exact H12 |].
  unfold classify, rejectionReasonFor, noMatchReason.
  rewrite H12, Hinc.
  destruct Hty as [<- | [<- | []]]; split; reflexivity.
Qed.

(** Conversely, a reference list that holds [undefined] lets every such
    row through. *)
Lemma short_row_accepted
    (uploadType : JsVal) (existingCtcNumbers : list JsVal)
    (cells : list string) :
  In uploadType [JStr "contacts"; JStr "results"] ->
  In JUndefined existingCtcNumbers ->
  List.length cells < 13 ->
  classify uploadType (writeRow cells) existingCtcNumbers = Accept.
Proof.
  intros Hty Hundef Hlen.
  assert (H12 : getProp (writeRow cells) "_12" = JUndefined).
  { change "_12" with (columnKey 12). apply getProp_writeRow_short. lia. }
  unfold classify, rejectionReasonFor.
  rewrite H12, (undefined_included _ Hundef).
  destruct Hty as [<- | [<- | []]]; reflexivity.
Qed.

(** C10 (as amended), on a two-cell contacts row against one known
    number. *)
Lemma short_row_rejected_witness :
  getProp (writeRow ["C-1"; "Asha"]) "_12" = JUndefined
  /\ classify (JStr "contacts") (writeRow ["C-1"; "Asha"]) [JStr "CTC100"]
     = Reject (noMatchReason (JStr "contacts"))
  /\ truthy (noMatchReason (JStr "contacts")) = true.
Proof.
  apply (short_row_rejected (JStr "contacts") [JStr "CTC100"] ["C-1"; "Asha"]).
  - simpl. tauto.
  - simpl. intros [E | []]. discriminate.
  - simpl. lia.
Defined.

(** C10 (as stated) fails: when an element of the dependency's response
    has no [ctc_number], the reference list holds [undefined], the absent
    [_12] of a two-cell contacts row is found in it, and the row is
    accepted: the upload is answered 201 with nothing rejected. *)
Lemma short_row_accepted_when_undefined_listed :
  referenceSetOf Samples.unlabelled = Some [JUndefined]
  /\ List.length ["C-1"; "Asha"] < 13
  /\ getProp (writeRow ["C-1"; "Asha"]) "_12" = JUndefined
  /\ classify (JStr "contacts") (writeRow ["C-1"; "Asha"]) [JUndefined]
     = Accept
  /\ classify (JStr "contacts") (writeRow ["C-1"; "Asha"]) [JUndefined]
     <> Reject (noMatchReason (JStr "contacts"))
  /\ exists payload,
       In (Respond 201 payload)
          (create Samples.shortContactsUpload Samples.unlabelled)
       /\ Payload.rejected payload = false.
Proof.
  repeat split; try reflexivity.
  - simpl. lia.
  - vm_compute. discriminate.
  - eexists. split.
    + vm_compute. repeat (first [left; reflexivity | right]).
    + reflexivity.
Qed.

(** * Further properties of the controller *)

(** ** File names *)

Lemma split_app_sep (sep : ascii) (a b : string) :
  contains sep a = false ->
  split sep (a ++ String sep b) = a :: split sep b.
Proof.
  induction a as [| c a IH]; cbn [append contains split]; intros Ha.
  - now rewrite Ascii.eqb_refl.
  - apply orb_false_iff in Ha as [Hc Ha].
    rewrite Hc, (IH Ha). reflexivity.
Qed.

Lemma split_no_sep (sep : ascii) (a : string) :
  contains sep a = false -> split sep a = [a].
Proof.
  induction a as [| c a IH]; cbn [contains split]; intros Ha; [reflexivity |].
  apply orb_false_iff in Ha as [Hc Ha].
  rewrite Hc, (IH Ha). reflexivity.
Qed.

Lemma split_not_nil (sep : ascii) (s : string) : split sep s <> [].
Proof.
  destruct s as [| c s]; cbn [split]; [discriminate |].
  destruct (Ascii.eqb c sep); [discriminate |].
  destruct (split sep s); discriminate.
Qed.

(** X1: the parse of line 62 and the [switch] of lines 126-138 agree.  The
    upload type is [null] exactly when the second segment of the name is
    not one of clients, contacts, results, and then no directory is mapped;
    otherwise the type is that segment and its directory is index_uploads,
    contacts_uploads or results_uploads respectively. *)
Theorem upload_type_and_directory (name : string) :
  (~ In (index (split "_" name) 1) uploadTypes
   /\ uploadTypeOf name = JNull
   /\ uploadDirectoryFor (uploadTypeOf name) = None)
  \/ (exists t dir,
         In (t, dir) [ ("clients", "index_uploads");
                       ("contacts", "contacts_uploads");
                       ("results", "results_uploads") ]
         /\ index (split "_" name) 1 = JStr t
         /\ uploadTypeOf name = JStr t
         /\ uploadDirectoryFor (uploadTypeOf name) = Some dir).
Proof.
  unfold uploadTypeOf.
  destruct (includes uploadTypes (index (split "_" name) 1)) eqn:E.
  - right. apply includes_uploadTypes in E.
    destruct E as [E | [E | [E | []]]]; rewrite <- E.
    + exists "clients", "index_uploads". cbn. tauto.
    + exists "contacts", "contacts_uploads". cbn. tauto.
    + exists "results", "results_uploads". cbn. tauto.
  - left. repeat split.
    intros Hin. unfold includes in E.
    assert (Hex : existsb (fun e => sameValueZero e (index (split "_" name) 1))
                    uploadTypes = true).
    { apply existsb_exists. exists (index (split "_" name) 1).
      split; [exact Hin |].
      destruct Hin as [<- | [<- | [<- | []]]]; reflexivity. }
    congruence.
Qed.

(** X2: a name that follows the convention -- a prefix without an
    underscore, then one of clients, contacts, results, then either nothing
    or an underscore and any suffix -- gives that upload type. *)
Theorem conventional_name_gives_type (pre t suffix : string) :
  contains "_" pre = false ->
  In t ["clients"; "contacts"; "results"] ->
  uploadTypeOf (pre ++ "_" ++ t ++ "_" ++ suffix) = JStr t
  /\ uploadTypeOf (pre ++ "_" ++ t) = JStr t.
Proof.
  intros Hpre Ht.
  assert (Hnone : contains "_" t = false).
  { destruct Ht as [<- | [<- | [<- | []]]]; reflexivity. }
  unfold uploadTypeOf. split.
  - change (pre ++ "_" ++ t ++ "_" ++ suffix)
      with (pre ++ String "_" (t ++ String "_" suffix)).
    rewrite (split_app_sep _ _ _ Hpre), (split_app_sep _ _ _ Hnone).
    cbn [index nth_error].
    destruct Ht as [<- | [<- | [<- | []]]]; reflexivity.
  - change (pre ++ "_" ++ t) with (pre ++ String "_" t).
    rewrite (split_app_sep _ _ _ Hpre), (split_no_sep _ _ Hnone).
    cbn [index nth_error].
    destruct Ht as [<- | [<- | [<- | []]]]; reflexivity.
Qed.

(** X2, on the name of the sample clients file. *)
Lemma conventional_name_gives_type_witness :
  uploadTypeOf ("batch" ++ "_" ++ "clients" ++ "_" ++ "001.csv")
  = JStr "clients"
  /\ uploadTypeOf ("batch" ++ "_" ++ "clients") = JStr "clients".
Proof.
  apply (conventional_name_gives_type "batch" "clients" "001.csv").
  - reflexivity.
  - simpl. tauto.
Defined.

(** The first segment of a text that opens with the characters of [t] and
    a dot opens with them too. *)
Lemma split_dotted (t ext : string) :
  contains "_" t = false ->
  exists seg rest, split "_" (t ++ "." ++ ext) = (t ++ "." ++ seg) :: rest.
Proof.
  intros Ht.
  induction t as [| c t IH]; cbn [append contains] in *.
  - cbn [split]. change (Ascii.eqb "." "_") with false. cbv iota.
    destruct (split "_" ext) as [| seg rest] eqn:E.
    + now elim (split_not_nil "_" ext).
    + now exists seg, rest.
  - apply orb_false_iff in Ht as [Hc Ht].
    destruct (IH Ht) as (seg & rest & E).
    exists seg, rest. cbn [split]. rewrite Hc.
    cbn [append] in E. rewrite E. reflexivity.
Qed.

(** X3: a name whose type is followed directly by a dot and an extension,
    such as batch_clients.csv, has the upload type [null]: its second
    segment is not exactly one of the three types. *)
Theorem dotted_type_is_null (pre t ext : string) :
  contains "_" pre = false ->
  In t ["clients"; "contacts"; "results"] ->
  uploadTypeOf (pre ++ "_" ++ t ++ "." ++ ext) = JNull
  /\ uploadDirectoryFor (uploadTypeOf (pre ++ "_" ++ t ++ "." ++ ext)) = None.
Proof.
  intros Hpre Ht.
  assert (Hnone : contains "_" t = false).
  { destruct Ht as [<- | [<- | [<- | []]]]; reflexivity. }
  destruct (split_dotted t ext Hnone) as (seg & rest & E).
  assert (Hnull : uploadTypeOf (pre ++ "_" ++ t ++ "." ++ ext) = JNull).
  { apply uploadTypeOf_null.
    change (pre ++ "_" ++ t ++ "." ++ ext)
      with (pre ++ String "_" (t ++ "." ++ ext)).
    rewrite (split_app_sep _ _ _ Hpre), E. cbn [index nth_error].
    destruct Ht as [<- | [<- | [<- | []]]];
      cbn; intros [H | [H | [H | []]]]; discriminate. }
  split; [exact Hnull |]. now rewrite Hnull.
Qed.

(** X3, on batch_clients.csv. *)
Lemma dotted_type_is_null_witness :
  uploadTypeOf ("batch" ++ "_" ++ "clients" ++ "." ++ "csv") = JNull
  /\ uploadDirectoryFor
       (uploadTypeOf ("batch" ++ "_" ++ "clients" ++ "." ++ "csv")) = None.
Proof.
  apply (dotted_type_is_null "batch" "clients" "csv").
  - reflexivity.
  - simpl. tauto.
Defined.

(** ** Outcomes of a request *)

(** X4: the 201 response is sent exactly when a file is attached, the
    dependency gave a usable list, at least one row was accepted, the
    upload type has a directory and the write succeeded; its body is then
    the payload built from the final buffers. *)
Theorem responds_iff (req : Request) (w : World)
    (status : nat) (payload : Payload.t) :
  In (Respond status payload) (create req w)
  <-> exists f st dir,
        file req = Some f
        /\ finalState req w = Some st
        /\ results st <> []
        /\ uploadDirectoryFor (uploadTypeOf (originalname f)) = Some dir
        /\ writeSucceeds w = true
        /\ status = 201
        /\ payload = payloadFor st.
Proof.
  split.
  - intros Hin.
    destruct (create_event_origin _ _ _ Hin) as
      [(st & f & Hfs & Hf & Hend) | (_ & err & _ & E)]; try discriminate.
    destruct (onEnd_cases (writeSucceeds w) (uploadTypeOf (originalname f))
                (originalname f) st)
      as [(_ & Ho) | [(_ & _ & Ho) | [(_ & _ & _ & Ho)
          | (dir & first & rest & Hres & Hdir & Hw & Ho)]]];
      rewrite Ho in Hend.
    1-3: destruct Hend as [E | []]; discriminate.
    destruct Hend as [E | [E | []]]; [discriminate |].
    injection E as Hs Hp.
    exists f, st, dir. repeat split; try assumption; congruence.
  - intros (f & st & dir & Hf & Hfs & Hres & Hdir & Hw & -> & ->).
    rewrite (create_streamed _ _ _ _ Hf Hfs), Hw.
    destruct (onEnd_cases true (uploadTypeOf (originalname f))
                (originalname f) st)
      as [(H & _) | [(_ & H & _) | [(_ & _ & H & _)
          | (d & fi & re & _ & _ & _ & Ho)]]];
      [contradiction | congruence | discriminate |].
    rewrite Ho. right. apply in_or_app. right. right. right. now left.
Qed.

(** X5: a request writes at most one file.  When it writes, the records
    are the whole non-empty [results] buffer, the file keeps the uploaded
    name, and the 201 response follows as the last event; when it does not
    write, no response is sent. *)
Theorem writes_at_most_once (req : Request) (w : World) :
  (filesWritten (create req w) = []
   /\ forall status payload, ~ In (Respond status payload) (create req w))
  \/ (exists f st dir first rest,
         file req = Some f
         /\ finalState req w = Some st
         /\ results st = first :: rest
         /\ filesWritten (create req w)
            = [(csvWriterFor dir (originalname f) first, first :: rest)]
         /\ fileName (path (csvWriterFor dir (originalname f) first))
            = originalname f
         /\ create req w
            = Fetch ctcNumbersUrl
              :: map Data (parse (buffer f))
              ++ [ End_;
                   WriteRecords (csvWriterFor dir (originalname f) first)
                     (first :: rest);
                   Respond 201 (payloadFor st) ]).
Proof.
  destruct (finalState req w) as [st |] eqn:Hfs.
  - destruct (finalState_some _ _ _ Hfs) as (f & ex & Hf & _ & _).
    pose proof (create_streamed _ _ _ _ Hf Hfs) as Hc.
    assert (Hfw : forall tail_,
               filesWritten (Fetch ctcNumbersUrl
                             :: map Data (parse (buffer f)) ++ End_ :: tail_)
               = filesWritten tail_).
    { intros tail_.
      change (filesWritten (Fetch ctcNumbersUrl :: ?l)) with (filesWritten l).
      rewrite filesWritten_app, filesWritten_Data. reflexivity. }
    destruct (onEnd_cases (writeSucceeds w) (uploadTypeOf (originalname f))
                (originalname f) st)
      as [(_ & Ho) | [(_ & _ & Ho) | [(_ & _ & _ & Ho)
          | (dir & first & rest & Hres & _ & _ & Ho)]]];
      rewrite Ho in Hc.
    1-3: left; split;
      [ rewrite Hc, Hfw; reflexivity
      | intros status payload Hin; rewrite Hc in Hin;
        destruct Hin as [Hin | Hin]; [discriminate |];
        apply in_app_or in Hin as [Hin | [Hin | [Hin | []]]];
        [apply in_map_iff in Hin as (d & Hd & _) | |]; discriminate ].
    right. exists f, st, dir, first, rest.
    rewrite Hres in Hc.
    repeat split; try assumption.
    rewrite Hc, Hfw. reflexivity.
  - left. destruct (create_not_streamed _ _ Hfs) as (e & _ & [Hc | Hc]);
      rewrite Hc; split; try reflexivity;
      intros status payload Hin; cbn in Hin; intuition discriminate.
Qed.

(** X6: whatever the request, the only error of the kind "Invalid upload
    type" that [create] raises reads "Invalid upload type: null", and it is
    raised only for a file whose name has no recognised type in its second
    segment. *)
Theorem invalid_type_error_is_null
    (req : Request) (w : World) (uploadType : JsVal) :
  raises (invalidUploadType uploadType) (create req w) ->
  invalidUploadType uploadType = Error "Invalid upload type: null"
  /\ exists f,
       file req = Some f
       /\ uploadTypeOf (originalname f) = JNull
       /\ ~ In (index (split "_" (originalname f)) 1) uploadTypes.
Proof.
  intros Hraise.
  assert (Hend : exists st f,
             finalState req w = Some st /\ file req = Some f
             /\ In (Throw (invalidUploadType uploadType))
                  (onEnd (writeSucceeds w) (uploadTypeOf (originalname f))
                     (originalname f) st)).
  { destruct Hraise as [Hin | Hin].
    - exfalso.
      destruct (create_event_origin _ _ _ Hin) as
        [(st & f & _ & _ & Hend) | (_ & err & Herr & E)]; try discriminate.
      + destruct (onEnd_cases (writeSucceeds w) (uploadTypeOf (originalname f))
                    (originalname f) st)
          as [(_ & Ho) | [(_ & _ & Ho) | [(_ & _ & _ & Ho)
              | (dir & first & rest & _ & _ & _ & Ho)]]];
          rewrite Ho in Hend;
          repeat (destruct Hend as [Hend | Hend]; try discriminate);
          contradiction.
      + injection E as <-. exact (earlyErrors_not_invalid uploadType Herr).
    - destruct (create_event_origin _ _ _ Hin) as
        [(st & f & Hfs & Hf & Hend) | (_ & err & _ & E)]; try discriminate.
      now exists st, f. }
  destruct Hend as (st & f & Hfs & Hf & Hend).
  destruct (upload_type_and_directory (originalname f))
    as [(Hseg & Hnull & Hdir) | (t & dir & _ & _ & _ & Hdir)].
  - rewrite Hnull in Hend.
    destruct (onEnd_cases (writeSucceeds w) JNull (originalname f) st)
      as [(_ & Ho) | [(_ & _ & Ho) | [(_ & H & _)
          | (dir & first & rest & _ & H & _)]]];
      [| | now elim H | discriminate]; rewrite Ho in Hend.
    + destruct Hend as [E | []]. discriminate.
    + destruct Hend as [E | []].
      assert (Ei : invalidUploadType uploadType = invalidUploadType JNull)
        by congruence.
      split; [now rewrite Ei |]. now exists f.
  - exfalso.
    destruct (onEnd_cases (writeSucceeds w) (uploadTypeOf (originalname f))
                (originalname f) st)
      as [(_ & Ho) | [(_ & H & _) | [(_ & _ & _ & Ho)
          | (d & first & rest & _ & _ & _ & Ho)]]];
      [| congruence | |]; rewrite Ho in Hend;
      repeat (destruct Hend as [Hend | Hend]; try discriminate);
      contradiction.
Qed.

(** X6, on the sample file of unknown type. *)
Lemma invalid_type_error_is_null_witness :
  raises (invalidUploadType JNull) (create Samples.ordersUpload Samples.known)
  /\ invalidUploadType JNull = Error "Invalid upload type: null"
  /\ exists f,
       file Samples.ordersUpload = Some f
       /\ uploadTypeOf (originalname f) = JNull
       /\ ~ In (index (split "_" (originalname f)) 1) uploadTypes.
Proof.
  assert (H : raises (invalidUploadType JNull)
                (create Samples.ordersUpload Samples.known)).
  { right. vm_compute. repeat (first [left; reflexivity | right]). }
  split; [exact H |].
  exact (invalid_type_error_is_null _ _ _ H).
Defined.

(** ** What the buffers hold *)

(** X7: every entry of [results] is a row of the file with its cells
    untouched under their positions, followed by the four identity fields
    and nothing else; it carries no [rejectionReason]. *)
Theorem accepted_rows_keep_cells
    (uploadType : JsVal) (existingCtcNumbers : list JsVal)
    (caller : CallerIdentity) (lines : list (list string)) (r : RowObj) :
  In r (results (runStream uploadType existingCtcNumbers caller
                   (parse lines))) ->
  exists cells,
    nth_error lines (ident r) = Some cells
    /\ keys (props r)
       = (map columnKey (seq 0 (List.length cells)) ++ labels)%list
    /\ (forall i c,
           nth_error cells i = Some c ->
           getProp (props r) (columnKey i) = JStr c)
    /\ getProp (props r) "rejectionReason" = JUndefined.
Proof.
  intros Hin.
  destruct (runStream_buffers uploadType existingCtcNumbers caller
              (parse lines)) as [Hres _].
  rewrite Hres in Hin.
  destruct (In_enrichAll _ _ _ _ Hin) as (b & data & Hd & ->).
  apply filter_In in Hd as [Hd _].
  destruct (parse_row _ _ Hd) as (cells & Hnth & Hprops).
  exists cells. rewrite ident_enrich.
  split; [exact Hnth |]. split; [now apply keys_enrich |]. split.
  - intros i c Hc. rewrite getProp_enrich_other.
    + rewrite Hprops. now apply getProp_writeRow_cell.
    + intros Hl. apply (columnKey_not_label i (columnKey i));
        [now right | reflexivity].
  - rewrite getProp_enrich_other by (cbn; intuition discriminate).
    rewrite Hprops. apply getProp_absent, writeRow_no_label. now left.
Qed.

(** X7, on the new client of the sample clients file. *)
Lemma accepted_rows_keep_cells_witness :
  In (enrich false Samples.caller
        {| ident := 2; props := writeRow ["CTC200"; "Bea"] |})
     (results (runStream (JStr "clients") [JStr "CTC100"] Samples.caller
                 (parse Samples.clientsLines)))
  /\ exists cells,
       nth_error Samples.clientsLines 2 = Some cells
       /\ keys (props (enrich false Samples.caller
                         {| ident := 2; props := writeRow ["CTC200"; "Bea"] |}))
          = (map columnKey (seq 0 (List.length cells)) ++ labels)%list
       /\ (forall i c,
              nth_error cells i = Some c ->
              getProp (props (enrich false Samples.caller
                                {| ident := 2;
                                   props := writeRow ["CTC200"; "Bea"] |}))
                (columnKey i) = JStr c)
       /\ getProp (props (enrich false Samples.caller
                            {| ident := 2;
                               props := writeRow ["CTC200"; "Bea"] |}))
            "rejectionReason" = JUndefined.
Proof.
  assert (H : In (enrich false Samples.caller
                    {| ident := 2; props := writeRow ["CTC200"; "Bea"] |})
                (results (runStream (JStr "clients") [JStr "CTC100"]
                            Samples.caller (parse Samples.clientsLines)))).
  { vm_compute. right. left. reflexivity. }
  split; [exact H |].
  exact (accepted_rows_keep_cells _ _ _ _ _ H).
Defined.

Lemma rejectionReasonFor_texts
    (uploadType : JsVal) (existingCtcNumbers : list JsVal) (data : Obj) :
  In (rejectionReasonFor uploadType existingCtcNumbers data)
     [ "";
       "Duplicate CTC number in clients file";
       "No matching index client CTC number in contacts file";
       "No matching index client CTC number in results file" ].
Proof.
  unfold rejectionReasonFor.
  destruct (strictEq uploadType (JStr "clients")
            && includes existingCtcNumbers (getProp data "_0"));
    [cbn; tauto |].
  destruct (includes [JStr "contacts"; JStr "results"] uploadType
            && negb (includes existingCtcNumbers (getProp data "_12")));
    [| cbn; tauto].
  destruct (strictEq uploadType (JStr "contacts")); cbn; tauto.
Qed.

(** X8: every entry of [rejectedRows] is a row of the file with its cells
    untouched under their positions and one more field, [rejectionReason],
    holding one of the three reason texts; it has none of the four
    identity fields. *)
Theorem rejected_rows_keep_cells
    (uploadType : JsVal) (existingCtcNumbers : list JsVal)
    (caller : CallerIdentity) (lines : list (list string)) (r : RowObj) :
  In r (rejectedRows (runStream uploadType existingCtcNumbers caller
                        (parse lines))) ->
  exists cells reason,
    nth_error lines (ident r) = Some cells
    /\ keys (props r)
       = (map columnKey (seq 0 (List.length cells))
          ++ ["rejectionReason"])%list
    /\ (forall i c,
           nth_error cells i = Some c ->
           getProp (props r) (columnKey i) = JStr c)
    /\ getProp (props r) "rejectionReason" = JStr reason
    /\ In reason
         [ "Duplicate CTC number in clients file";
           "No matching index client CTC number in contacts file";
           "No matching index client CTC number in results file" ]
    /\ appended r = [JUndefined; JUndefined; JUndefined; JUndefined].
Proof.
  intros Hin.
  destruct (runStream_buffers uploadType existingCtcNumbers caller
              (parse lines)) as [_ Hrej].
  rewrite Hrej in Hin.
  apply in_map_iff in Hin as (data & <- & Hd).
  apply filter_In in Hd as [Hd Hrejects].
  destruct (parse_row _ _ Hd) as (cells & Hnth & Hprops).
  exists cells,
    (rejectionReasonFor uploadType existingCtcNumbers (props data)).
  unfold withReason, assign. cbn [ident props].
  assert (Hfresh : forall k,
             In k ("rejectionReason" :: labels) -> ~ In k (keys (props data))).
  { intros k Hk. rewrite Hprops. now apply writeRow_no_label. }
  split; [exact Hnth |]. split; [| split; [| split; [| split]]].
  - rewrite keys_setProp_fresh by (apply Hfresh; now left).
    now rewrite Hprops, keys_writeRow.
  - intros i c Hc. rewrite getProp_setProp_other.
    + rewrite Hprops. now apply getProp_writeRow_cell.
    + intros E. symmetry in E. revert E.
      apply columnKey_not_label. now left.
  - apply getProp_setProp_same.
  - unfold rejects, accepted in Hrejects. rewrite negb_involutive in Hrejects.
    destruct (rejectionReasonFor_texts uploadType existingCtcNumbers
                (props data)) as [E | H]; [| exact H].
    rewrite <- E in Hrejects. discriminate.
  - unfold appended, labels. cbn [props map].
    rewrite !getProp_setProp_other by discriminate.
    rewrite !getProp_absent by (apply Hfresh; cbn; tauto).
    reflexivity.
Qed.

(** X8, on the known client of the sample clients file. *)
Lemma rejected_rows_keep_cells_witness :
  In (withReason (JStr "clients") [JStr "CTC100"]
        {| ident := 1; props := writeRow ["CTC100"; "Asha"] |})
     (rejectedRows (runStream (JStr "clients") [JStr "CTC100"] Samples.caller
                      (parse Samples.clientsLines)))
  /\ exists cells reason,
       nth_error Samples.clientsLines 1 = Some cells
       /\ keys (props (withReason (JStr "clients") [JStr "CTC100"]
                         {| ident := 1;
                            props := writeRow ["CTC100"; "Asha"] |}))
          = (map columnKey (seq 0 (List.length cells))
             ++ ["rejectionReason"])%list
       /\ (forall i c,
              nth_error cells i = Some c ->
              getProp (props (withReason (JStr "clients") [JStr "CTC100"]
                                {| ident := 1;
                                   props := writeRow ["CTC100"; "Asha"] |}))
                (columnKey i) = JStr c)
       /\ getProp (props (withReason (JStr "clients") [JStr "CTC100"]
                            {| ident := 1;
                               props := writeRow ["CTC100"; "Asha"] |}))
            "rejectionReason" = JStr reason
       /\ In reason
            [ "Duplicate CTC number in clients file";
              "No matching index client CTC number in contacts file";
              "No matching index client CTC number in results file" ]
       /\ appended (withReason (JStr "clients") [JStr "CTC100"]
                      {| ident := 1; props := writeRow ["CTC100"; "Asha"] |})
          = [JUndefined; JUndefined; JUndefined; JUndefined].
Proof.
  assert (H : In (withReason (JStr "clients") [JStr "CTC100"]
                    {| ident := 1; props := writeRow ["CTC100"; "Asha"] |})
                (rejectedRows (runStream (JStr "clients") [JStr "CTC100"]
                                 Samples.caller
                                 (parse Samples.clientsLines)))).
  { vm_compute. left. reflexivity. }
  split; [exact H |].
  exact (rejected_rows_keep_cells _ _ _ _ _ H).
Defined.

(** ** Order and independence of the rows *)

Lemma sorted_filter_idents (p : RowObj -> bool) (rows : list RowObj) :
  StronglySorted lt (map ident rows) ->
  StronglySorted lt (map ident (filter p rows)).
Proof.
  induction rows as [| r rows IH]; cbn; intros Hs; [constructor |].
  inversion Hs as [| ? ? Hrest Hall]; subst.
  destruct (p r); cbn; [| now apply IH].
  constructor; [now apply IH |].
  apply Forall_forall. intros i Hi.
  apply in_map_iff in Hi as (r' & <- & Hr'). apply filter_In in Hr' as [Hr' _].
  rewrite Forall_forall in Hall. apply Hall. now apply in_map.
Qed.

Lemma sorted_seq (n a : nat) : StronglySorted lt (seq a n).
Proof.
  revert a. induction n as [| n IH]; intros a; cbn; constructor.
  - apply IH.
  - apply Forall_forall. intros i Hi. apply in_seq in Hi. lia.
Qed.

(** X9: both buffers keep the order of the file: the positions of the
    rows in [results], and of those in [rejectedRows], are strictly
    increasing.  In particular the entry the report leaves out is the
    rejected row that comes first in the file. *)
Theorem buffers_keep_stream_order
    (uploadType : JsVal) (existingCtcNumbers : list JsVal)
    (caller : CallerIdentity) (lines : list (list string)) :
  let st := runStream uploadType existingCtcNumbers caller (parse lines) in
  StronglySorted lt (map ident (results st))
  /\ StronglySorted lt (map ident (rejectedRows st))
  /\ forall first rest r,
       rejectedRows st = first :: rest -> In r rest -> ident first < ident r.
Proof.
  intros st.
  destruct (runStream_buffers uploadType existingCtcNumbers caller
              (parse lines)) as [Hres Hrej].
  fold st in Hres, Hrej.
  assert (Hparse : StronglySorted lt (map ident (parse lines))).
  { rewrite ident_parse. apply sorted_seq. }
  assert (H2 : StronglySorted lt (map ident (rejectedRows st))).
  { rewrite Hrej, map_map. cbn [withReason assign ident].
    now apply sorted_filter_idents. }
  split; [| split; [exact H2 |]].
  - rewrite Hres, ident_enrichAll. now apply sorted_filter_idents.
  - intros first rest r E Hr. rewrite E in H2. cbn in H2.
    inversion H2 as [| ? ? _ Hall]; subst.
    rewrite Forall_forall in Hall. apply Hall. now apply in_map.
Qed.

Lemma parse_nth (lines : list (list string)) (i : nat) (cells : list string) :
  nth_error lines i = Some cells ->
  In {| ident := i; props := writeRow cells |} (parse lines).
Proof.
  intros Hnth. unfold parse.
  apply in_map_iff. exists (i, cells). split; [reflexivity |].
  assert (G : forall (l : list (list string)) a k,
             nth_error l k = Some cells ->
             In (a + k, cells) (combine (seq a (List.length l)) l)).
  { induction l as [| x l IH]; intros a k Hk; [now destruct k |].
    destruct k as [| k]; cbn in *.
    - injection Hk as ->. left. now rewrite Nat.add_0_r.
    - right. replace (a + S k) with (S a + k) by lia. now apply IH. }
  exact (G lines 0 i Hnth).
Qed.

(** A row of the file is in [results] exactly when the classifier accepts
    it. *)
Lemma in_results_iff
    (uploadType : JsVal) (existingCtcNumbers : list JsVal)
    (caller : CallerIdentity) (lines : list (list string))
    (i : nat) (cells : list string) :
  nth_error lines i = Some cells ->
  In i (map ident (results (runStream uploadType existingCtcNumbers caller
                              (parse lines))))
  <-> classify uploadType (writeRow cells) existingCtcNumbers = Accept.
Proof.
  intros Hnth.
  destruct (runStream_buffers uploadType existingCtcNumbers caller
              (parse lines)) as [-> _].
  rewrite ident_enrichAll.
  assert (Hacc : forall r,
             In r (parse lines) -> ident r = i ->
             accepted uploadType existingCtcNumbers r = true
             <-> classify uploadType (writeRow cells) existingCtcNumbers
                 = Accept).
  { intros r Hr Hi. destruct (parse_row _ _ Hr) as (cells' & Hn & Hp).
    rewrite Hi, Hnth in Hn. injection Hn as <-.
    unfold accepted, classify. rewrite Hp.
    destruct (truthy (rejectionReasonFor uploadType existingCtcNumbers
                        (writeRow cells))); cbn; split; congruence. }
  split.
  - intros Hin. apply in_map_iff in Hin as (r & Hi & Hr).
    apply filter_In in Hr as [Hr Ha]. now apply (Hacc r Hr Hi).
  - intros Hc. apply in_map_iff.
    exists {| ident := i; props := writeRow cells |}. split; [reflexivity |].
    apply filter_In. split; [now apply parse_nth |].
    apply (Hacc _ (parse_nth _ _ _ Hnth) eq_refl). exact Hc.
Qed.

(** X10: a row is classified on its own cells only; the rest of the file
    plays no part.  Two lines with the same cells are therefore both
    accepted or both rejected, so a number that occurs twice in one clients
    file is not noticed. *)
Theorem equal_lines_routed_alike
    (uploadType : JsVal) (existingCtcNumbers : list JsVal)
    (caller : CallerIdentity) (lines : list (list string))
    (i j : nat) (cells : list string) :
  nth_error lines i = Some cells ->
  nth_error lines j = Some cells ->
  let st := runStream uploadType existingCtcNumbers caller (parse lines) in
  In i (map ident (results st)) <-> In j (map ident (results st)).
Proof.
  intros Hi Hj st. unfold st.
  rewrite (in_results_iff _ _ _ _ _ _ Hi), (in_results_iff _ _ _ _ _ _ Hj).
  reflexivity.
Qed.

(** X10, on a clients file that names the same new client twice: both
    lines are accepted. *)
Lemma equal_lines_routed_alike_witness :
  nth_error [["ctc"; "name"]; ["CTC200"; "Bea"]; ["CTC200"; "Bea"]] 1
  = Some ["CTC200"; "Bea"]
  /\ nth_error [["ctc"; "name"]; ["CTC200"; "Bea"]; ["CTC200"; "Bea"]] 2
     = Some ["CTC200"; "Bea"]
  /\ (In 1 (map ident
             (results
                (runStream (JStr "clients") [JStr "CTC100"] Samples.caller
                   (parse [ ["ctc"; "name"]; ["CTC200"; "Bea"];
                            ["CTC200"; "Bea"] ]))))
      <-> In 2 (map ident
                 (results
                    (runStream (JStr "clients") [JStr "CTC100"] Samples.caller
                       (parse [ ["ctc"; "name"]; ["CTC200"; "Bea"];
                                ["CTC200"; "Bea"] ]))))).
Proof.
  split; [reflexivity |]. split; [reflexivity |].
  exact (equal_lines_routed_alike (JStr "clients") [JStr "CTC100"]
           Samples.caller
           [["ctc"; "name"]; ["CTC200"; "Bea"]; ["CTC200"; "Bea"]]
           1 2 ["CTC200"; "Bea"] eq_refl eq_refl).
Defined.

(** ** The first-row flag *)

Lemma onData_keeps_flag_invariant
    (uploadType : JsVal) (existingCtcNumbers : list JsVal)
    (caller : CallerIdentity) (st : StreamState) (data : RowObj) :
  (isFirstRow st = true <-> results st = []) ->
  let st' := onData uploadType existingCtcNumbers caller st data in
  isFirstRow st' = true <-> results st' = [].
Proof.
  intros Hinv. unfold onData.
  destruct (truthy (rejectionReasonFor uploadType existingCtcNumbers
                      (props data))); cbn.
  - exact Hinv.
  - split; [discriminate |]. intros E. now destruct (results st).
Qed.

(** X11: at every point of the stream the flag [isFirstRow] is true
    exactly when [results] is still empty; rejected rows do not consume
    it. *)
Theorem first_row_flag_invariant
    (uploadType : JsVal) (existingCtcNumbers : list JsVal)
    (caller : CallerIdentity) (rows : list RowObj) :
  let st := runStream uploadType existingCtcNumbers caller rows in
  (isFirstRow st = true <-> results st = [])
  /\ (isFirstRow st = true
      <-> forallb (rejects uploadType existingCtcNumbers) rows = true).
Proof.
  intros st.
  assert (Hinv : isFirstRow st = true <-> results st = []).
  { unfold st, runStream.
    assert (G : forall rs s,
               (isFirstRow s = true <-> results s = []) ->
               isFirstRow (fold_left (onData uploadType existingCtcNumbers
                                        caller) rs s) = true
               <-> results (fold_left (onData uploadType existingCtcNumbers
                                         caller) rs s) = []).
    { induction rs as [| r rs IH]; intros s Hs; [exact Hs |].
      cbn [fold_left]. apply IH.
      now apply onData_keeps_flag_invariant. }
    apply G. cbn. tauto. }
  split; [exact Hinv |].
  rewrite Hinv.
  destruct (runStream_buffers uploadType existingCtcNumbers caller rows)
    as [Hres _].
  fold st in Hres. rewrite Hres. clear.
  induction rows as [| r rows IH]; cbn; [tauto |].
  unfold rejects at 1.
  destruct (accepted uploadType existingCtcNumbers r); cbn.
  - split; discriminate.
  - exact IH.
Qed.

(** ** An empty reference list, an unknown type *)

Lemma filter_all (A : Type) (p : A -> bool) (l : list A) :
  (forall x, In x l -> p x = true) -> filter p l = l.
Proof.
  induction l as [| x l IH]; cbn; intros H; [reflexivity |].
  rewrite (H x) by now left. f_equal. apply IH. intros y Hy. apply H. now right.
Qed.

Lemma filter_none (A : Type) (p : A -> bool) (l : list A) :
  (forall x, In x l -> p x = false) -> filter p l = [].
Proof.
  induction l as [| x l IH]; cbn; intros H; [reflexivity |].
  rewrite (H x) by now left. apply IH. intros y Hy. apply H. now right.
Qed.

Lemma length_enrichAll (caller : CallerIdentity) (rows : list RowObj) :
  forall b, List.length (enrichAll b caller rows) = List.length rows.
Proof.
  induction rows as [| r rows IH]; intros b; cbn; [reflexivity |].
  now rewrite IH.
Qed.

Lemma length_parse (lines : list (list string)) :
  List.length (parse lines) = List.length lines.
Proof.
  rewrite <- (length_map ident), ident_parse. apply length_seq.
Qed.

(** X12: when the dependency answers with an empty array, a clients
    upload rejects nothing and accepts every row, while a contacts or
    results upload accepts nothing: it ends in "All rows were rejected."
    and writes no file, whatever the file holds. *)
Theorem empty_reference_list (req : Request) (w : World) (f : File) :
  file req = Some f ->
  fetched w = Response true (Some (JArr [])) ->
  exists st,
    finalState req w = Some st
    /\ (uploadTypeOf (originalname f) = JStr "clients" ->
        rejectedRows st = []
        /\ List.length (results st) = List.length (buffer f))
    /\ (In (uploadTypeOf (originalname f)) [JStr "contacts"; JStr "results"] ->
        results st = []
        /\ List.length (rejectedRows st) = List.length (buffer f)
        /\ raises allRowsRejected (create req w)
        /\ filesWritten (create req w) = []).
Proof.
  intros Hf Hfetch.
  assert (Hfs : finalState req w
                = Some (runStream (uploadTypeOf (originalname f)) []
                          (decoded_data req) (parse (buffer f)))).
  { unfold finalState, referenceSetOf. now rewrite Hf, Hfetch. }
  eexists. split; [exact Hfs |].
  destruct (runStream_buffers (uploadTypeOf (originalname f)) []
              (decoded_data req) (parse (buffer f))) as [Hres Hrej].
  split.
  - intros Hty. rewrite Hty in *.
    assert (Hall : forall r, In r (parse (buffer f)) ->
                   accepted (JStr "clients") [] r = true) by reflexivity.
    split.
    + rewrite Hrej, filter_none; [reflexivity |].
      intros r Hr. unfold rejects. now rewrite Hall.
    + rewrite Hres, (filter_all _ _ _ Hall), length_enrichAll.
      apply length_parse.
  - intros Hty.
    assert (Hnone : forall r, In r (parse (buffer f)) ->
                    accepted (uploadTypeOf (originalname f)) [] r = false).
    { intros r _. destruct Hty as [<- | [<- | []]]; reflexivity. }
    assert (Hempty : results (runStream (uploadTypeOf (originalname f)) []
                                (decoded_data req) (parse (buffer f))) = []).
    { now rewrite Hres, (filter_none _ _ _ Hnone). }
    split; [exact Hempty |]. split.
    + rewrite Hrej, filter_all, length_map; [apply length_parse |].
      intros r Hr. unfold rejects. now rewrite (Hnone r Hr).
    + destruct (empty_results_all_rejected _ _ _ Hfs Hempty) as (H1 & H2 & _).
      split; assumption.
Qed.

(** X12, on the sample contacts file while the dependency knows no
    number. *)
Lemma empty_reference_list_witness :
  exists st,
    finalState Samples.contactsUpload
      {| fetched := Response true (Some (JArr [])); writeSucceeds := true |}
    = Some st
    /\ (uploadTypeOf "batch_contacts_002.csv" = JStr "clients" ->
        rejectedRows st = []
        /\ List.length (results st) = List.length Samples.contactsLines)
    /\ (In (uploadTypeOf "batch_contacts_002.csv")
          [JStr "contacts"; JStr "results"] ->
        results st = []
        /\ List.length (rejectedRows st) = List.length Samples.contactsLines
        /\ raises allRowsRejected
             (create Samples.contactsUpload
                {| fetched := Response true (Some (JArr []));
                   writeSucceeds := true |})
        /\ filesWritten
             (create Samples.contactsUpload
                {| fetched := Response true (Some (JArr []));
                   writeSucceeds := true |}) = []).
Proof.
  exact (empty_reference_list Samples.contactsUpload
           {| fetched := Response true (Some (JArr []));
              writeSucceeds := true |}
           {| originalname := "batch_contacts_002.csv";
              buffer := Samples.contactsLines |}
           eq_refl eq_refl).
Defined.

(** X13: a file of unknown type that holds at least one line can never be
    stored.  Once the dependency has answered, every line is accepted,
    none is rejected, and the request ends in "Invalid upload type: null"
    with nothing written and no response sent. *)
Theorem unknown_type_never_stored
    (req : Request) (w : World) (f : File) (st : StreamState) :
  file req = Some f ->
  uploadTypeOf (originalname f) = JNull ->
  buffer f <> [] ->
  finalState req w = Some st ->
  rejectedRows st = []
  /\ List.length (results st) = List.length (buffer f)
  /\ create req w
     = Fetch ctcNumbersUrl
       :: map Data (parse (buffer f))
       ++ [End_; Throw (Error "Invalid upload type: null")]
  /\ filesWritten (create req w) = []
  /\ forall status payload, ~ In (Respond status payload) (create req w).
Proof.
  intros Hf Hnull Hne Hfs.
  destruct (finalState_some _ _ _ Hfs) as (f' & ex & Hf' & _ & Hst).
  assert (f' = f) by congruence. subst f'. rewrite Hnull in Hst.
  assert (Hres : results st = enrichAll true (decoded_data req)
                                (parse (buffer f))).
  { rewrite Hst. apply null_type_accepts_all. }
  assert (Hlen : List.length (results st) = List.length (buffer f)).
  { now rewrite Hres, length_enrichAll, length_parse. }
  assert (Hrej : rejectedRows st = []).
  { destruct (runStream_buffers JNull ex (decoded_data req)
                (parse (buffer f))) as [_ H].
    rewrite Hst, H. now rewrite filter_none. }
  assert (Hnonempty : results st <> []).
  { intros E. rewrite E in Hlen. destruct (buffer f); [contradiction |].
    discriminate. }
  assert (Hc : create req w
               = Fetch ctcNumbersUrl
                 :: map Data (parse (buffer f))
                 ++ [End_; Throw (Error "Invalid upload type: null")]).
  { rewrite (create_streamed _ _ _ _ Hf Hfs), Hnull.
    destruct (onEnd_cases (writeSucceeds w) JNull (originalname f) st)
      as [(H & _) | [(_ & _ & Ho) | [(_ & H & _)
          | (dir & first & rest & _ & H & _)]]];
      [contradiction | now rewrite Ho | now elim H | discriminate]. }
  split; [exact Hrej |]. split; [exact Hlen |]. split; [exact Hc |].
  destruct (writes_at_most_once req w)
    as [(H1 & H2)
        | (f2 & st' & dir & first & rest & Hf2 & _ & _ & _ & _ & Hc')].
  - now split.
  - exfalso. assert (f2 = f) by congruence. subst f2.
    rewrite Hc in Hc'. injection Hc' as Hc'.
    apply app_inv_head in Hc'. discriminate.
Qed.

(** X13, on the sample file of unknown type. *)
Lemma unknown_type_never_stored_witness :
  exists st,
    finalState Samples.ordersUpload Samples.known = Some st
    /\ rejectedRows st = []
    /\ List.length (results st) = List.length Samples.clientsLines
    /\ create Samples.ordersUpload Samples.known
       = Fetch ctcNumbersUrl
         :: map Data (parse Samples.clientsLines)
         ++ [End_; Throw (Error "Invalid upload type: null")]
    /\ filesWritten (create Samples.ordersUpload Samples.known) = []
    /\ forall status payload,
         ~ In (Respond status payload)
             (create Samples.ordersUpload Samples.known).
Proof.
  eexists.
  assert (H : finalState Samples.ordersUpload Samples.known
              = Some (runStream JNull [JStr "CTC100"] Samples.caller
                        (parse Samples.clientsLines))) by reflexivity.
  split; [exact H |].
  apply (unknown_type_never_stored Samples.ordersUpload Samples.known
           {| originalname := "batch_orders_003.csv";
              buffer := Samples.clientsLines |}).
  - reflexivity.
  - reflexivity.
  - discriminate.
  - exact H.
Defined.

(** X14: rows are handed to the ['data'] handler only once the dependency
    has answered with a usable list, and then every row of the file is
    handed over, in order, whichever way the request ends; in every other
    case none is. *)
Theorem rows_read_all_or_none (req : Request) (w : World) :
  rowsRead (create req w)
  = match file req, finalState req w with
    | Some f, Some _ => parse (buffer f)
    | _, _ => []
    end.
Proof.
  destruct (finalState req w) as [st |] eqn:Hfs.
  - destruct (finalState_some _ _ _ Hfs) as (f & ex & Hf & _ & _).
    rewrite Hf. exact (rowsRead_streamed _ _ _ _ Hf Hfs).
  - destruct (create_not_streamed _ _ Hfs) as (e & _ & [Hc | Hc]);
      rewrite Hc; now destruct (file req).
Qed.

(** * Version 1.0.1 and the root handler *)

Lemma V1_fold_onData (caller : CallerIdentity) (rows : list RowObj) :
  forall st,
    V1.results (fold_left (V1.onData caller) rows st)
    = (V1.results st ++ enrichAll (V1.isFirstRow st) caller rows)%list.
Proof.
  induction rows as [| r rows IH]; intros st; cbn.
  - now rewrite app_nil_r.
  - rewrite IH. cbn. now rewrite <- app_assoc.
Qed.

(** Version 1.0.1 keeps every row. *)
Lemma V1_results (caller : CallerIdentity) (rows : list RowObj) :
  V1.results (V1.runStream caller rows) = enrichAll true caller rows.
Proof. unfold V1.runStream. now rewrite V1_fold_onData. Qed.

Lemma filter_nil_none (A : Type) (p : A -> bool) (l : list A) :
  filter p l = [] -> forall x, In x l -> p x = false.
Proof.
  induction l as [| y l IH]; cbn; intros E x Hx; [contradiction |].
  destruct (p y) eqn:Hy; [discriminate |].
  destruct Hx as [<- | Hx]; [exact Hy | now apply IH].
Qed.

(** When 1.1.0 rejects nothing, its accepted buffer is the buffer of
    1.0.1. *)
Lemma results_as_V1
    (uploadType : JsVal) (existingCtcNumbers : list JsVal)
    (caller : CallerIdentity) (rows : list RowObj) :
  rejectedRows (runStream uploadType existingCtcNumbers caller rows) = [] ->
  results (runStream uploadType existingCtcNumbers caller rows)
  = V1.results (V1.runStream caller rows).
Proof.
  destruct (runStream_buffers uploadType existingCtcNumbers caller rows)
    as [-> ->].
  intros E. apply map_eq_nil in E. rewrite V1_results. f_equal.
  apply filter_all. intros r Hr.
  pose proof (filter_nil_none _ _ _ E r Hr) as H.
  unfold rejects in H. now apply negb_false_iff in H.
Qed.

Lemma V1_uploadTypeOf_known (name : string) :
  In (uploadTypeOf name) [JStr "clients"; JStr "contacts"] ->
  V1.uploadTypeOf name = uploadTypeOf name
  /\ V1.uploadDirectoryFor (uploadTypeOf name)
     = uploadDirectoryFor (uploadTypeOf name)
  /\ uploadDirectoryFor (uploadTypeOf name) <> None.
Proof.
  intros Hin.
  destruct (upload_type_and_directory name)
    as [(_ & Hnull & _) | (t & dir & _ & Hseg & Hty & _)].
  - rewrite Hnull in Hin. destruct Hin as [H | [H | []]]; discriminate.
  - unfold V1.uploadTypeOf. rewrite Hseg, Hty in *.
    destruct Hin as [H | [H | []]]; injection H as <-; cbn;
      repeat split; discriminate.
Qed.

(** X15: on a clients or contacts upload for which version 1.1.0 rejects
    no row, it writes exactly the file version 1.0.1 writes: the same
    options and the same records. *)
Theorem same_file_as_V1_when_nothing_rejected
    (req : Request) (w : World) (f : File) (st : StreamState) :
  file req = Some f ->
  finalState req w = Some st ->
  In (uploadTypeOf (originalname f)) [JStr "clients"; JStr "contacts"] ->
  rejectedRows st = [] ->
  results st
  = V1.results (V1.runStream (decoded_data req) (parse (buffer f)))
  /\ forall params records,
       In (WriteRecords params records) (create req w)
       <-> In (V1.WriteRecords params records)
             (V1.create req (writeSucceeds w)).
Proof.
  intros Hf Hfs Hty Hrej.
  destruct (finalState_some _ _ _ Hfs) as (f' & ex & Hf' & _ & Hst).
  assert (f' = f) by congruence. subst f'.
  assert (Hres : results st
                 = V1.results (V1.runStream (decoded_data req)
                                 (parse (buffer f)))).
  { rewrite Hst in *. now apply results_as_V1. }
  split; [exact Hres |].
  destruct (V1_uploadTypeOf_known _ Hty) as (Hty1 & Hdir1 & Hdir).
  intros params records.
  rewrite (create_streamed _ _ _ _ Hf Hfs).
  unfold V1.create. rewrite Hf. cbn zeta. rewrite Hty1.
  unfold V1.onEnd. rewrite Hdir1, <- Hres.
  destruct (onEnd_cases (writeSucceeds w) (uploadTypeOf (originalname f))
              (originalname f) st)
    as [(Hr & Ho) | [(_ & H & _) | [(Hr & _ & Hw & Ho)
        | (dir & first & rest & Hr & Hd & Hw & Ho)]]];
    [| contradiction | |]; rewrite Ho.
  - rewrite Hr. cbn [List.length Nat.ltb Nat.leb].
    split; intros H.
    + destruct H as [H | H]; [discriminate |].
      apply in_app_or in H as [H | [H | [H | []]]]; try discriminate.
      apply in_map_iff in H as (d & Hd & _). discriminate.
    + apply in_app_or in H as [H | [H | [H | []]]]; try discriminate.
      apply in_map_iff in H as (d & Hd & _). discriminate.
  - rewrite Hw. destruct (results st) as [| first rest]; [contradiction |].
    cbn [List.length Nat.ltb Nat.leb].
    destruct (uploadDirectoryFor (uploadTypeOf (originalname f)))
      as [dir |]; [| contradiction].
    split; intros H.
    + destruct H as [H | H]; [discriminate |].
      apply in_app_or in H as [H | [H | [H | []]]]; try discriminate.
      apply in_map_iff in H as (d & Hd & _). discriminate.
    + apply in_app_or in H as [H | [H | [H | []]]]; try discriminate.
      apply in_map_iff in H as (d & Hd & _). discriminate.
  - rewrite Hr, Hd, Hw. cbn [List.length Nat.ltb Nat.leb].
    split; intros H.
    + destruct H as [H | H]; [discriminate |].
      apply in_app_or in H as [H | [H | [H | [H | []]]]]; try discriminate.
      * apply in_map_iff in H as (d & Hd' & _). discriminate.
      * injection H as <- <-. apply in_or_app. right. right. now left.
    + apply in_app_or in H as [H | [H | [H | [H | []]]]]; try discriminate.
      * apply in_map_iff in H as (d & Hd' & _). discriminate.
      * injection H as <- <-. right. apply in_or_app. right. right. now left.
Qed.

(** X15, on the sample clients file while the dependency knows none of its
    numbers. *)
Lemma same_file_as_V1_when_nothing_rejected_witness :
  exists st,
    finalState Samples.clientsUpload Samples.unrelated = Some st
    /\ rejectedRows st = []
    /\ results st
       = V1.results (V1.runStream Samples.caller (parse Samples.clientsLines))
    /\ forall params records,
         In (WriteRecords params records)
            (create Samples.clientsUpload Samples.unrelated)
         <-> In (V1.WriteRecords params records)
               (V1.create Samples.clientsUpload true).
Proof.
  eexists.
  assert (H : finalState Samples.clientsUpload Samples.unrelated
              = Some (runStream (JStr "clients") [JStr "CTC999"]
                        Samples.caller (parse Samples.clientsLines)))
    by reflexivity.
  split; [exact H |]. split; [reflexivity |].
  apply (same_file_as_V1_when_nothing_rejected
           Samples.clientsUpload Samples.unrelated
           {| originalname := "batch_clients_001.csv";
              buffer := Samples.clientsLines |}).
  - reflexivity.
  - exact H.
  - simpl. tauto.
  - reflexivity.
Defined.

(** X16: version 1.0.1 with a file attached.  It keeps every row, the
    first with the labels.  A file without a line ends in "No data
    available to write to CSV."; a file with lines whose type is not
    clients or contacts is answered 201 with the text "Upload type is
    null!" followed by the name, and nothing is written; otherwise, the
    write succeeding, the file is written with all rows and answered
    201. *)
Theorem V1_outcomes (req : Request) (writeOk : bool) (f : File) :
  file req = Some f ->
  let rows := parse (buffer f) in
  let st := V1.runStream (decoded_data req) rows in
  V1.results st = enrichAll true (decoded_data req) rows
  /\ (buffer f = [] ->
      V1.create req writeOk = [V1.End_; V1.Throw V1.noData])
  /\ (buffer f <> [] ->
      V1.uploadTypeOf (originalname f) = JNull ->
      V1.create req writeOk
      = (map V1.Data rows
         ++ [ V1.End_;
              V1.RespondText 201
                ("Upload type is null!" ++ originalname f)%string ])%list)
  /\ (forall first rest dir,
         V1.results st = first :: rest ->
         V1.uploadDirectoryFor (V1.uploadTypeOf (originalname f)) = Some dir ->
         writeOk = true ->
         V1.create req writeOk
         = (map V1.Data rows
            ++ [ V1.End_;
                 V1.WriteRecords (csvWriterFor dir (originalname f) first)
                   (first :: rest);
                 V1.Respond 201 V1.payload ])%list).
Proof.
  intros Hf rows st. subst st.
  split; [apply V1_results |].
  unfold V1.create. rewrite Hf. cbn zeta. unfold V1.onEnd.
  rewrite !V1_results. fold rows.
  split; [| split].
  - intros Hb. unfold rows. rewrite Hb. reflexivity.
  - intros Hb Hnull. rewrite Hnull.
    destruct (enrichAll true (decoded_data req) rows) as [| first rest] eqn:E;
      [| reflexivity].
    exfalso.
    assert (Hlen : List.length (enrichAll true (decoded_data req) rows) = 0)
      by now rewrite E.
    unfold rows in Hlen. rewrite length_enrichAll, length_parse in Hlen.
    destruct (buffer f); [contradiction | discriminate].
  - intros first rest dir E Hdir ->. rewrite Hdir, E. reflexivity.
Qed.

(** X16, on the sample clients file. *)
Lemma V1_outcomes_witness :
  V1.results (V1.runStream Samples.caller (parse Samples.clientsLines))
  = enrichAll true Samples.caller (parse Samples.clientsLines)
  /\ (Samples.clientsLines = [] ->
      V1.create Samples.clientsUpload true = [V1.End_; V1.Throw V1.noData])
  /\ (Samples.clientsLines <> [] ->
      V1.uploadTypeOf "batch_clients_001.csv" = JNull ->
      V1.create Samples.clientsUpload true
      = (map V1.Data (parse Samples.clientsLines)
         ++ [ V1.End_;
              V1.RespondText 201
                ("Upload type is null!" ++ "batch_clients_001.csv")%string ]
        )%list)
  /\ (forall first rest dir,
         V1.results (V1.runStream Samples.caller (parse Samples.clientsLines))
         = first :: rest ->
         V1.uploadDirectoryFor (V1.uploadTypeOf "batch_clients_001.csv")
         = Some dir ->
         true = true ->
         V1.create Samples.clientsUpload true
         = (map V1.Data (parse Samples.clientsLines)
            ++ [ V1.End_;
                 V1.WriteRecords
                   (csvWriterFor dir "batch_clients_001.csv" first)
                   (first :: rest);
                 V1.Respond 201 V1.payload ])%list).
Proof.
  exact (V1_outcomes Samples.clientsUpload true
           {| originalname := "batch_clients_001.csv";
              buffer := Samples.clientsLines |} eq_refl).
Defined.

(** X17: results files are understood by version 1.1.0 only.  For a name
    that follows the convention with the type results, 1.1.0 parses the
    type results and maps it to results_uploads, while 1.0.1 parses
    [null] and has no directory for it. *)
Theorem results_type_is_new (pre suffix : string) :
  contains "_" pre = false ->
  uploadTypeOf (pre ++ "_" ++ "results" ++ "_" ++ suffix) = JStr "results"
  /\ uploadDirectoryFor (JStr "results") = Some "results_uploads"
  /\ V1.uploadTypeOf (pre ++ "_" ++ "results" ++ "_" ++ suffix) = JNull
  /\ V1.uploadDirectoryFor (JStr "results") = None.
Proof.
  intros Hpre.
  split; [| split; [reflexivity | split; [| reflexivity]]].
  - apply (conventional_name_gives_type pre "results" suffix Hpre).
    cbn. tauto.
  - unfold V1.uploadTypeOf.
    change (pre ++ "_" ++ "results" ++ "_" ++ suffix)
      with (pre ++ String "_" ("results" ++ String "_" suffix)).
    rewrite (split_app_sep _ _ _ Hpre).
    rewrite (split_app_sep "_" "results" suffix eq_refl).
    reflexivity.
Qed.

(** X17, on batch_results_9.csv. *)
Lemma results_type_is_new_witness :
  uploadTypeOf ("batch" ++ "_" ++ "results" ++ "_" ++ "9.csv") = JStr "results"
  /\ uploadDirectoryFor (JStr "results") = Some "results_uploads"
  /\ V1.uploadTypeOf ("batch" ++ "_" ++ "results" ++ "_" ++ "9.csv") = JNull
  /\ V1.uploadDirectoryFor (JStr "results") = None.
Proof.
  exact (results_type_is_new "batch" "9.csv" eq_refl).
Defined.

(** X18: the root handler of version 1.1.0 answers every request as the
    one of version 1.0.1 does: status 200, no token, the message "Root
    path reached", and [authenticated] true exactly when the decoded token
    is truthy -- so false when none is attached and true for every object. *)
Theorem root_handler_versions_agree (req : Root.Request) :
  Root.all req = V1.all req
  /\ Root.status (Root.all req) = 200
  /\ Root.authenticated (Root.payload (Root.all req))
     = Root.toBoolean (Root.decoded req)
  /\ (Root.decoded req = JUndefined ->
      Root.authenticated (Root.payload (Root.all req)) = false)
  /\ (forall o, Root.decoded req = JObj o ->
      Root.authenticated (Root.payload (Root.all req)) = true).
Proof.
  unfold Root.all, V1.all. cbn.
  rewrite negb_involutive.
  destruct (Root.toBoolean (Root.decoded req)) eqn:E; repeat split;
    try (intros H; rewrite H in E; cbn in E; congruence);
    try (intros o H; rewrite H in E; cbn in E; congruence).
Qed.
